(** * Column summation script [eval/data_time/count.py]

    A shallow embedding of the script and of the parts of the Python
    run time it relies on: floating-point numbers (IEEE binary64), the
    conversion [float(str)], [str()] of the printed total, exceptions
    with [try]/[except], [print], and the rows handed out by
    [csv.reader]. *)

From Stdlib Require Import ZArith List String Ascii Bool Lia SpecFloat DecimalString.
Import ListNotations.

Local Open Scope Z_scope.

(** ** Binary64 arithmetic

    Python's [float] is an IEEE 754 binary64 number.  The operations
    are those of the Standard Library's executable specification
    [SpecFloat], taken at precision 53 and maximal exponent 1024. *)
Module Float64.

Definition prec : Z := 53.
Definition emax : Z := 1024.

Definition float : Type := spec_float.

Definition pos_zero : float := S754_zero false.
Definition pos_inf : float := S754_infinity false.
Definition nan : float := S754_nan.

(** [x + y], rounded to nearest, ties to even. *)
Definition add (x y : float) : float := SFadd prec emax x y.

Definition opp (x : float) : float := SFopp x.

(** Conversion of an integer, rounded to nearest even.  (Python raises
    OverflowError above the largest finite float; the script only ever
    converts the integer [0].) *)
Definition of_Z (z : Z) : float := binary_normalize prec emax z 0 false.

(** The float nearest to [m * 10 ^ e10], ties to even, with sign
    [neg]: what a correctly rounded decimal-to-binary conversion
    returns.  [nd] is the number of decimal digits of [m]; it only
    serves the two early exits, where the value is known to be above
    every finite float or below half the smallest subnormal. *)
Definition of_decimal (neg : bool) (m : positive) (nd : Z) (e10 : Z) : float :=
  if 309 <=? nd - 1 + e10 then S754_infinity neg
  else if nd + e10 <=? -324 then S754_zero neg
  else if 0 <=? e10 then
    binary_round prec emax neg (m * Z.to_pos (10 ^ e10)) 0
  else
    let '(q, e', l) :=
      SFdiv_core_binary prec emax (Zpos m) 0 (10 ^ (- e10)) 0 in
    binary_round_aux prec emax neg q e' l.

End Float64.

(** ** Characters and digit strings

    A Python [str] is modelled by the Rocq [string] of its UTF-8
    bytes, so an ASCII text is the same text in both.  The C routines
    below walk a character buffer; here the buffer is a [list ascii]
    and a pointer into it is the remaining suffix. *)

Definition ord (c : ascii) : Z := Z.of_N (N_of_ascii c).

Definition is_nil {A : Type} (l : list A) : bool :=
  match l with [] => true | _ :: _ => false end.

(** The longest prefix whose characters all satisfy [p], and the rest. *)
Fixpoint span (p : ascii -> bool) (s : list ascii) : list ascii * list ascii :=
  match s with
  | c :: t =>
      if p c then let '(a, b) := span p t in (c :: a, b) else ([], s)
  | [] => ([], [])
  end.

Fixpoint dropwhile (p : ascii -> bool) (s : list ascii) : list ascii :=
  match s with
  | c :: t => if p c then dropwhile p t else s
  | [] => []
  end.

Definition isdigit (c : ascii) : bool := (48 <=? ord c) && (ord c <=? 57).
Definition is_zero_digit (c : ascii) : bool := ord c =? 48.

(** [Py_ISSPACE]: the ASCII white space of the C locale. *)
Definition Py_ISSPACE (c : ascii) : bool :=
  ((9 <=? ord c) && (ord c <=? 13)) || (ord c =? 32).

(** [Py_TOLOWER]. *)
Definition Py_TOLOWER (c : ascii) : ascii :=
  if (65 <=? ord c) && (ord c <=? 90)
  then ascii_of_N (Z.to_N (ord c + 32)) else c.

(** The text after a decimal point, when the buffer starts with one. *)
Definition after_point (s : list ascii) : option (list ascii) :=
  match s with
  | c :: t => if Ascii.eqb c "." then Some t else None
  | [] => None
  end.

(** ** Unicode text

    The code points of a [str] are read off its UTF-8 bytes.  Only
    well-formed sequences are decoded (no overlong form, no surrogate,
    nothing above U+10FFFF); a byte outside such a sequence stands for
    the lone surrogate U+DC00 + byte, as under the [surrogateescape]
    error handler, so that every [string] is some [str]. *)

Definition chr (ch : Z) : ascii := ascii_of_N (Z.to_N ch).

Definition is_continuation (c : Z) : bool := (128 <=? c) && (c <=? 191).

(** The second byte a lead byte allows. *)
Definition second_ok (c0 c1 : Z) : bool :=
  if c0 =? 224 then (160 <=? c1) && (c1 <=? 191)
  else if c0 =? 237 then (128 <=? c1) && (c1 <=? 159)
  else if c0 =? 240 then (144 <=? c1) && (c1 <=? 191)
  else if c0 =? 244 then (128 <=? c1) && (c1 <=? 143)
  else is_continuation c1.

Definition surrogate_escape (b : Z) : Z := 56320 + b.

Fixpoint utf8_decode (s : list ascii) : list Z :=
  match s with
  | [] => []
  | b0 :: t =>
      let c0 := ord b0 in
      if c0 <? 128 then c0 :: utf8_decode t
      else if (194 <=? c0) && (c0 <=? 223) then
        match t with
        | b1 :: t1 =>
            if is_continuation (ord b1)
            then (c0 - 192) * 64 + (ord b1 - 128) :: utf8_decode t1
            else surrogate_escape c0 :: utf8_decode t
        | _ => surrogate_escape c0 :: utf8_decode t
        end
      else if (224 <=? c0) && (c0 <=? 239) then
        match t with
        | b1 :: b2 :: t2 =>
            if second_ok c0 (ord b1) && is_continuation (ord b2)
            then (c0 - 224) * 4096 + (ord b1 - 128) * 64 + (ord b2 - 128)
                 :: utf8_decode t2
            else surrogate_escape c0 :: utf8_decode t
        | _ => surrogate_escape c0 :: utf8_decode t
        end
      else if (240 <=? c0) && (c0 <=? 244) then
        match t with
        | b1 :: b2 :: b3 :: t3 =>
            if second_ok c0 (ord b1) && is_continuation (ord b2)
               && is_continuation (ord b3)
            then (c0 - 240) * 262144 + (ord b1 - 128) * 4096
                 + (ord b2 - 128) * 64 + (ord b3 - 128)
                 :: utf8_decode t3
            else surrogate_escape c0 :: utf8_decode t
        | _ => surrogate_escape c0 :: utf8_decode t
        end
      else surrogate_escape c0 :: utf8_decode t
  end.

(** The code points of a [str]. *)
Definition code_points (v : string) : list Z := utf8_decode (list_ascii_of_string v).

(** [Py_UNICODE_ISSPACE]: the code points [str.isspace] accepts. *)
Definition Py_UNICODE_ISSPACE (ch : Z) : bool :=
  ((9 <=? ch) && (ch <=? 13)) || ((28 <=? ch) && (ch <=? 32))
  || (ch =? 133) || (ch =? 160) || (ch =? 5760)
  || ((8192 <=? ch) && (ch <=? 8202))
  || (ch =? 8232) || (ch =? 8233) || (ch =? 8239) || (ch =? 8287)
  || (ch =? 12288).

(** The code points of the digit zero of every set of decimal digits;
    the other nine digits of a set follow its zero (Unicode 14.0, the
    character database of CPython 3.11). *)
Definition decimal_zeros : list Z :=
  [48; 1632; 1776; 1984; 2406; 2534; 2662; 2790; 2918; 3046; 3174; 3302;
   3430; 3558; 3664; 3792; 3872; 4160; 4240; 6112; 6160; 6470; 6608; 6784;
   6800; 6992; 7088; 7232; 7248; 42528; 43216; 43264; 43472; 43504; 43600;
   44016; 65296; 66720; 68912; 69734; 69872; 69942; 70096; 70384; 70736;
   70864; 71248; 71360; 71472; 71904; 72016; 72784; 73040; 73120; 92768;
   92864; 93008; 120782; 120792; 120802; 120812; 120822; 123200; 123632;
   125264; 130032].

(** [Py_UNICODE_TODECIMAL]: the value of a decimal digit, [None] for
    any other character. *)
Definition Py_UNICODE_TODECIMAL (ch : Z) : option Z :=
  match find (fun z => (z <=? ch) && (ch <? z + 10)) decimal_zeros with
  | Some z => Some (ch - z)
  | None => None
  end.

(** Value of a string of decimal digits, most significant first. *)
Definition digits_value (ds : list ascii) : Z :=
  fold_left (fun acc c => 10 * acc + (ord c - 48)) ds 0.

(** ** [float(str)]

    The conversion follows CPython: [PyFloat_FromString] strips white
    space, [_Py_string_to_number_with_underscores] removes the digit
    separators, [_PyOS_ascii_strtod] reads a decimal literal with
    [_Py_dg_strtod] and otherwise an infinity or a NaN, and the whole
    text has to be consumed. *)
Module PyFloat.

Import Float64.

Definition MAX_DIGITS : Z := 1000000000.
Definition MAX_ABS_EXP : Z := 1100000000.

Definition parse_sign (s : list ascii) : bool * list ascii :=
  match s with
  | "-"%char :: t => (true, t)
  | "+"%char :: t => (false, t)
  | _ => (false, s)
  end.

(** The exponent part.  Without a digit after [e] (and its sign) the
    pointer goes back to the [e], and the exponent is [0]. *)
Definition parse_exponent (s : list ascii) : Z * list ascii :=
  match s with
  | c :: t =>
      if (ord c =? 101) || (ord c =? 69) then
        let '(esign, t1) := parse_sign t in
        let '(ez, t2) := span is_zero_digit t1 in
        let '(ed, t3) := span isdigit t2 in
        if is_nil ed && is_nil ez then (0, s)
        else
          let abs_exp := digits_value ed mod 2 ^ 32 in
          let e := if (9 <? Zlength ed) || (MAX_ABS_EXP <? abs_exp)
                   then MAX_ABS_EXP else abs_exp in
          (if esign then - e else e, t3)
      else (0, s)
  | [] => (0, s)
  end.

(** The digits after a decimal point: leading zeros (skipped only when
    no digit came before the point), then the other digits. *)
Definition parse_fraction (no_int_digits : bool) (s : list ascii)
  : list ascii * list ascii * list ascii :=
  match after_point s with
  | Some t =>
      let '(fz, t1) := if no_int_digits then span is_zero_digit t else ([], t) in
      let '(fd, t2) := span isdigit t1 in
      (fz, fd, t2)
  | None => ([], [], s)
  end.

(** [_Py_dg_strtod]: [None] is a parse error (the end pointer is left
    at the start), otherwise the value and the unread rest. *)
Definition dg_strtod (s00 : list ascii) : option (float * list ascii) :=
  let '(sign, s) := parse_sign s00 in
  let '(zeros, s1) := span is_zero_digit s in
  let '(int_digits, s2) := span isdigit s1 in
  let '(frac_zeros, frac_digits, s3) := parse_fraction (is_nil int_digits) s2 in
  let lz := negb (is_nil zeros) || negb (is_nil frac_zeros) in
  let digits := int_digits ++ frac_digits in
  let ndigits := Zlength digits in
  let fraclen := Zlength frac_zeros + Zlength frac_digits in
  if (ndigits =? 0) && negb lz then None
  else if (MAX_DIGITS <? ndigits) || (MAX_DIGITS <? fraclen) then None
  else
    let '(e, s4) := parse_exponent s3 in
    let x := match digits_value digits with
             | Zpos m => of_decimal sign m ndigits (e - fraclen)
             | _ => S754_zero sign
             end in
    Some (x, s4).

(** [case_insensitive_match]: the rest of [s] after the lower-case
    word [t], when [s] starts with it in any letter case. *)
Fixpoint case_insensitive_match (s t : list ascii) : option (list ascii) :=
  match t with
  | [] => Some s
  | ct :: t' =>
      match s with
      | cs :: s' =>
          if Ascii.eqb (Py_TOLOWER cs) ct then case_insensitive_match s' t' else None
      | [] => None
      end
  end.

Definition word_inf : list ascii := list_ascii_of_string "inf".
Definition word_inity : list ascii := list_ascii_of_string "inity".
Definition word_nan : list ascii := list_ascii_of_string "nan".

(** [_Py_parse_inf_or_nan]. *)
Definition parse_inf_or_nan (p : list ascii) : option (float * list ascii) :=
  let '(negate, s) := parse_sign p in
  match case_insensitive_match s word_inf with
  | Some s1 =>
      let s2 := match case_insensitive_match s1 word_inity with
                | Some s2 => s2
                | None => s1
                end in
      Some (S754_infinity negate, s2)
  | None =>
      match case_insensitive_match s word_nan with
      | Some s1 => Some (S754_nan, s1)
      | None => None
      end
  end.

(** [_PyOS_ascii_strtod]. *)
Definition ascii_strtod (nptr : list ascii) : option (float * list ascii) :=
  match dg_strtod nptr with
  | Some r => Some r
  | None => parse_inf_or_nan nptr
  end.

(** [float_from_string_inner]: the text must be read to its end. *)
Definition float_from_string_inner (s : list ascii) : option float :=
  match ascii_strtod s with
  | Some (x, []) => Some x
  | _ => None
  end.

(** The copy loop of [_Py_string_to_number_with_underscores]: an
    underscore is dropped when a digit stands on either side of it,
    and is an error anywhere else. *)
Fixpoint remove_underscores (prev : ascii) (s : list ascii) : option (list ascii) :=
  match s with
  | [] => if Ascii.eqb prev "_" then None else Some []
  | c :: t =>
      if Ascii.eqb c "_" then
        if isdigit prev then remove_underscores c t else None
      else if Ascii.eqb prev "_" && negb (isdigit c) then None
      else option_map (cons c) (remove_underscores c t)
  end.

Definition string_to_number_with_underscores (s : list ascii) : option float :=
  if existsb (Ascii.eqb "_") s then
    match remove_underscores zero s with
    | Some dup => float_from_string_inner dup
    | None => None
    end
  else float_from_string_inner s.

(** [_PyUnicode_TransformDecimalAndSpaceToASCII].  An ASCII text is
    returned as it is.  In any other text a character from 127 on
    becomes a space when it is white space and the ASCII digit of its
    value when it is a decimal digit; any other one ends the copy with
    a question mark. *)
Fixpoint transform_loop (u : list Z) : list ascii :=
  match u with
  | [] => []
  | ch :: rest =>
      if ch <? 127 then chr ch :: transform_loop rest
      else if Py_UNICODE_ISSPACE ch then " "%char :: transform_loop rest
      else
        match Py_UNICODE_TODECIMAL ch with
        | Some decimal => chr (48 + decimal) :: transform_loop rest
        | None => ["?"%char]
        end
  end.

Definition transform_decimal_and_space (u : list Z) : list ascii :=
  if forallb (fun ch => ch <? 128) u then map chr u else transform_loop u.

(** [PyFloat_FromString]: [None] stands for ValueError. *)
Definition PyFloat_FromString (v : string) : option float :=
  let s := transform_decimal_and_space (code_points v) in
  let s := dropwhile Py_ISSPACE s in
  if is_nil s then None
  else string_to_number_with_underscores (rev (dropwhile Py_ISSPACE (rev s))).

End PyFloat.

(** ** [str()] of a number

    [print] and the f-strings of the script call [str].  For a float
    that is [repr]: the shortest string of decimal digits that converts
    back to the same float (the nearest such string when there are
    two), laid out in fixed or in exponent notation. *)
Module PyStr.

Import Float64.

Definition float_eqb (x y : float) : bool :=
  match x, y with
  | S754_zero s, S754_zero t => Bool.eqb s t
  | S754_infinity s, S754_infinity t => Bool.eqb s t
  | S754_nan, S754_nan => true
  | S754_finite s m e, S754_finite t n f => Bool.eqb s t && Pos.eqb m n && (e =? f)
  | _, _ => false
  end.

(** [str(int)]. *)
Definition int_str (z : Z) : string := DecimalString.NilZero.string_of_int (Z.to_int z).

(** The positive rational [m * 2 ^ e * 10 ^ j] as a fraction. *)
Definition scaled (m : positive) (e j : Z) : Z * Z :=
  (Zpos m * 2 ^ Z.max e 0 * 10 ^ Z.max j 0,
   2 ^ Z.max (- e) 0 * 10 ^ Z.max (- j) 0).

(** [m * 2 ^ e < 10 ^ k] *)
Definition below_pow10 (m : positive) (e k : Z) : bool :=
  let '(num, den) := scaled m e (- k) in num <? den.

Fixpoint first_pow10_above (fuel : nat) (m : positive) (e k : Z) : Z :=
  match fuel with
  | O => k
  | S fuel' => if below_pow10 m e k then k else first_pow10_above fuel' m e (k + 1)
  end.

(** The [k] with [10 ^ (k - 1) <= m * 2 ^ e < 10 ^ k], searched upwards
    from an underestimate of the decimal logarithm. *)
Definition decimal_exponent (m : positive) (e : Z) : Z :=
  first_pow10_above 4 m e ((Z.log2 (Zpos m) + e) * 30103 / 100000 - 1).

(** The [n]-digit decimals just below and just above [m * 2 ^ e]; the
    one of them that reads back as the same float, if any (the nearer
    if both do, the even one on a tie), with its decimal exponent. *)
Definition shortest_at (m : positive) (e k n : Z) : option (Z * Z) :=
  let '(num, den) := scaled m e (n - k) in
  let lo := num / den in
  let r := num mod den in
  let hi := lo + 1 in
  let x := S754_finite false m e in
  let back c nd := float_eqb (of_decimal false (Z.to_pos c) nd (k - n)) x in
  let lo_ok := back lo n in
  let hi_ok := back hi (if hi =? 10 ^ n then n + 1 else n) in
  let nearest := if 2 * r <? den then lo
                 else if den <? 2 * r then hi
                 else if Z.even lo then lo else hi in
  if lo_ok && hi_ok then Some (nearest, k - n)
  else if lo_ok then Some (lo, k - n)
  else if hi_ok then Some (hi, k - n)
  else None.

Fixpoint shortest_from (fuel : nat) (m : positive) (e k n : Z) : Z * Z :=
  match fuel with
  | O => (fst (scaled m e (n - k)) / snd (scaled m e (n - k)), k - n)
  | S fuel' =>
      match shortest_at m e k n with
      | Some r => r
      | None => shortest_from fuel' m e k (n + 1)
      end
  end.

Definition digit_chars (z : Z) : list ascii :=
  list_ascii_of_string (DecimalString.NilZero.string_of_uint (N.to_uint (Z.to_N z))).

Definition strip_trailing_zeros (ds : list ascii) : list ascii :=
  rev (dropwhile is_zero_digit (rev ds)).

(** The digits [d1 ... dn] and the position [decpt] of the decimal
    point, the value being [0.d1...dn * 10 ^ decpt]. *)
Definition shortest_digits (m : positive) (e : Z) : list ascii * Z :=
  let k := decimal_exponent m e in
  let '(c, e10) := shortest_from 17 m e k 1 in
  let ds := digit_chars c in
  (strip_trailing_zeros ds, Zlength ds + e10).

Definition zeros (n : Z) : list ascii := repeat "0"%char (Z.to_nat n).

(** The layout of [format_float_short] for [repr]: exponent notation
    when [decpt <= -4] or [decpt > 16], at least two exponent digits,
    and [.0] added to a number without fraction. *)
Definition layout (ds : list ascii) (decpt : Z) : list ascii :=
  if (decpt <=? -4) || (16 <? decpt) then
    let mant := match ds with
                | d :: [] => [d]
                | d :: rest => d :: "."%char :: rest
                | [] => []
                end in
    let ex := decpt - 1 in
    let exd := digit_chars (Z.abs ex) in
    mant ++ ["e"%char; if ex <? 0 then "-"%char else "+"%char]
         ++ (if Zlength exd <? 2 then "0"%char :: exd else exd)
  else if decpt <=? 0 then
    "0"%char :: "."%char :: zeros (- decpt) ++ ds
  else if Zlength ds <=? decpt then
    ds ++ zeros (decpt - Zlength ds) ++ ["."%char; "0"%char]
  else
    firstn (Z.to_nat decpt) ds ++ "."%char :: skipn (Z.to_nat decpt) ds.

(** [repr(float)]. *)
Definition float_repr (x : float) : string :=
  match x with
  | S754_nan => "nan"
  | S754_infinity s => if s then "-inf" else "inf"
  | S754_zero s => if s then "-0.0" else "0.0"
  | S754_finite s m e =>
      let '(ds, decpt) := shortest_digits m e in
      string_of_list_ascii ((if s then ["-"%char] else []) ++ layout ds decpt)
  end.

End PyStr.

(** ** Numbers held by the script *)

(** [total] starts as the integer [0] and becomes a float with the first
    addition. *)
Inductive number : Type :=
| PyInt (z : Z)
| PyFloat (x : Float64.float).

Definition to_float (n : number) : Float64.float :=
  match n with
  | PyInt z => Float64.of_Z z
  | PyFloat x => x
  end.

(** [total + x] for a float [x]: the left operand is converted to a
    float and the result is a float. *)
Definition number_add (n : number) (x : Float64.float) : number :=
  PyFloat (Float64.add (to_float n) x).

Definition str (n : number) : string :=
  match n with
  | PyInt z => PyStr.int_str z
  | PyFloat x => PyStr.float_repr x
  end.

(** ** Exceptions *)

(** The exception classes that can reach the script. *)
Inductive exc_class : Type :=
| BaseException
| Exception
| OSError
| FileNotFoundError
| PermissionError
| IsADirectoryError
| LookupError
| IndexError
| NameError
| UnboundLocalError
| ValueError
| UnicodeError
| UnicodeDecodeError
| csv_Error
| UnicodeEncodeError
| ConnectionError
| BrokenPipeError.

Definition exc_class_eqb (c d : exc_class) : bool :=
  match c, d with
  | BaseException, BaseException | Exception, Exception | OSError, OSError
  | FileNotFoundError, FileNotFoundError | PermissionError, PermissionError
  | IsADirectoryError, IsADirectoryError | LookupError, LookupError
  | IndexError, IndexError | NameError, NameError
  | UnboundLocalError, UnboundLocalError | ValueError, ValueError
  | UnicodeError, UnicodeError | UnicodeDecodeError, UnicodeDecodeError
  | csv_Error, csv_Error | UnicodeEncodeError, UnicodeEncodeError
  | ConnectionError, ConnectionError | BrokenPipeError, BrokenPipeError => true
  | _, _ => false
  end.

(** The direct base class. *)
Definition base (c : exc_class) : option exc_class :=
  match c with
  | BaseException => None
  | Exception => Some BaseException
  | OSError | LookupError | NameError | ValueError | csv_Error => Some Exception
  | FileNotFoundError | PermissionError | IsADirectoryError => Some OSError
  | IndexError => Some LookupError
  | UnboundLocalError => Some NameError
  | UnicodeError => Some ValueError
  | UnicodeDecodeError | UnicodeEncodeError => Some UnicodeError
  | ConnectionError => Some OSError
  | BrokenPipeError => Some ConnectionError
  end.

Fixpoint issubclass_upto (depth : nat) (c d : exc_class) : bool :=
  exc_class_eqb c d
  || match depth with
     | O => false
     | S depth' =>
         match base c with
         | Some b => issubclass_upto depth' b d
         | None => false
         end
     end.

(** [issubclass(c, d)]; no chain of bases is longer than four. *)
Definition issubclass (c d : exc_class) : bool := issubclass_upto 4 c d.

(** ** The interpreter state and its monad *)

(** What the script can change: the local variable [total] of
    [sum_second_column] ([None] while it is unbound) and the lines
    written to standard output, one per call of [print]. *)
Record state : Type := mkState {
  total : option number;
  stdout : list string
}.

Inductive outcome (A : Type) : Type :=
| Returned (a : A)
| Raised (e : exc_class).

Arguments Returned {A} a.
Arguments Raised {A} e.

(** A computation changes the state and returns a value or raises; what
    it did before raising stays done. *)
Definition Py (A : Type) : Type := state -> outcome A * state.

Definition ret {A : Type} (a : A) : Py A := fun st => (Returned a, st).

Definition bind {A B : Type} (c : Py A) (k : A -> Py B) : Py B :=
  fun st =>
    match c st with
    | (Returned a, st') => k a st'
    | (Raised e, st') => (Raised e, st')
    end.

Definition raise {A : Type} (e : exc_class) : Py A := fun st => (Raised e, st).

(** [try: body  except cls: handler] *)
Definition try_except {A : Type} (body : Py A) (cls : exc_class) (handler : Py A) : Py A :=
  fun st =>
    match body st with
    | (Returned a, st') => (Returned a, st')
    | (Raised e, st') =>
        if issubclass e cls then handler st' else (Raised e, st')
    end.

Declare Scope py_scope.
Delimit Scope py_scope with py.
Notation "x <- c ;; k" := (bind c (fun x => k))
  (at level 61, c at next level, right associativity) : py_scope.
Notation "c ;; k" := (bind c (fun _ => k))
  (at level 61, right associativity) : py_scope.
Local Open Scope py_scope.

(** [print(line)] on a standard output that takes every text; for one
    that can refuse a text see [print_on] below. *)
Definition print (line : string) : Py unit :=
  fun st => (Returned tt, mkState (total st) (stdout st ++ [line])).

Definition load_total : Py number :=
  fun st =>
    match total st with
    | Some n => (Returned n, st)
    | None => (Raised UnboundLocalError, st)
    end.

Definition store_total (n : number) : Py unit :=
  fun st => (Returned tt, mkState (Some n) (stdout st)).

(** [l[i]] for a list and an index that is not negative. *)
Definition getitem {A : Type} (l : list A) (i : nat) : Py A :=
  match nth_error l i with
  | Some a => ret a
  | None => raise IndexError
  end.

(** [float(s)] for a string. *)
Definition float (s : string) : Py Float64.float :=
  match PyFloat.PyFloat_FromString s with
  | Some x => ret x
  | None => raise ValueError
  end.

(** ** Files

    [csv.reader] is library code: a readable file is modelled by what
    iterating the reader over it hands out, the rows in order and then
    either the end of the file or an exception raised while reading,
    decoding or splitting (UnicodeDecodeError, [csv.Error], ...). *)
Definition row : Type := list string.

Record reader : Type := mkReader {
  rows : list row;
  failure : option exc_class
}.

(** What [open(path, mode='r')] does. *)
Inductive open_result : Type :=
| OpenRaises (e : exc_class)
| Opened (r : reader).

Definition filesystem : Type := string -> open_result.

(** ** The script *)

(** The body of the [for] loop. *)
Definition loop_body (r : row) : Py unit :=
  if (1 <? List.length r)%nat then
    try_except
      (t <- load_total ;;
       field <- getitem r 8 ;;
       x <- float field ;;
       store_total (number_add t x))
      ValueError
      (field <- getitem r 8 ;;
       print ("Skipping invalid value: " ++ field)%string)
  else ret tt.

Fixpoint for_rows (rs : list row) : Py unit :=
  match rs with
  | [] => ret tt
  | r :: rest => loop_body r ;; for_rows rest
  end.

(** [for row in reader: ...] *)
Definition for_reader (rd : reader) : Py unit :=
  for_rows (rows rd) ;;
  match failure rd with
  | Some e => raise e
  | None => ret tt
  end.

Definition sum_second_column (fs : filesystem) (file_path : string) : Py number :=
  store_total (PyInt 0) ;;
  try_except
    (match fs file_path with
     | OpenRaises e => raise e
     | Opened rd => for_reader rd
     end)
    FileNotFoundError
    (print ("File not found: " ++ file_path)%string) ;;
  load_total.

Definition final_line (result : number) : string :=
  ("The sum of the second column is: " ++ str result)%string.

(** The statements at module level. *)
Definition script (fs : filesystem) (argv : list string) : Py unit :=
  file_path <- getitem argv 1 ;;
  result <- sum_second_column fs file_path ;;
  print (final_line result).

Definition initial_state : state := mkState None [].

(** A run of the program: how it ends (an exception that leaves the
    script ends the process with a traceback and a failure status) and
    what it wrote to standard output. *)
Definition run (fs : filesystem) (argv : list string) : outcome unit * list string :=
  let '(o, st) := script fs argv initial_state in (o, stdout st).

(** ** What the specification says, in its own words *)

(** What one row does to the loop, read off the rules of the
    specification: rows of fewer than two fields are passed over, a
    field 8 that converts is added, one that does not is reported, and
    a row of two to eight fields has no field 8. *)
Inductive row_effect : Type :=
| Passed
| Added (x : Float64.float)
| Reported (raw : string)
| NoField.

Definition effect_of (r : row) : row_effect :=
  if (1 <? List.length r)%nat then
    match nth_error r 8 with
    | Some field =>
        match PyFloat.PyFloat_FromString field with
        | Some x => Added x
        | None => Reported field
        end
    | None => NoField
    end
  else Passed.

Definition has_field (r : row) : bool :=
  match effect_of r with NoField => false | _ => true end.

(** The sum, in file order and starting from [acc], of the field-8
    values that convert, over the rows of more than one field. *)
Definition sum_from (acc : number) (rs : list row) : number :=
  fold_left
    (fun t r => match effect_of r with Added x => number_add t x | _ => t end)
    rs acc.

Definition column_sum (rs : list row) : number := sum_from (PyInt 0) rs.

Definition skip_line (raw : string) : string :=
  ("Skipping invalid value: " ++ raw)%string.

Definition missing_line (path : string) : string :=
  ("File not found: " ++ path)%string.

(** One diagnostic per row whose field 8 does not convert. *)
Definition diagnostics (rs : list row) : list string :=
  flat_map
    (fun r => match effect_of r with Reported raw => [skip_line raw] | _ => [] end)
    rs.

(** The rows handed out for a path: none when the file does not open. *)
Definition rows_read (fs : filesystem) (path : string) : list row :=
  match fs path with
  | Opened rd => rows rd
  | OpenRaises _ => []
  end.

(** A print call whose text is a total (for the lines of the output
    text see [is_total_line] below). *)
Definition is_final_line (line : string) : bool :=
  String.prefix "The sum of the second column is: " line.

(** The grammar of the specification: an optional sign, digits with an
    optional decimal point, and an optional exponent. *)
Module Grammar.

Definition is_exponent_mark (c : ascii) : bool := (ord c =? 101) || (ord c =? 69).

Definition exponent_part (s : list ascii) : bool :=
  match s with
  | [] => true
  | c :: t =>
      is_exponent_mark c
      && (let '(ds, rest) := span isdigit (snd (PyFloat.parse_sign t)) in
          negb (is_nil ds) && is_nil rest)
  end.

Definition decimal_literal (s : list ascii) : bool :=
  let '(int_part, s1) := span isdigit (snd (PyFloat.parse_sign s)) in
  let '(frac_part, s2) :=
    match after_point s1 with
    | Some t => span isdigit t
    | None => ([], s1)
    end in
  negb (is_nil int_part && is_nil frac_part) && exponent_part s2.

Fixpoint chars_eqb (s t : list ascii) : bool :=
  match s, t with
  | [], [] => true
  | c :: s', d :: t' => Ascii.eqb c d && chars_eqb s' t'
  | _, _ => false
  end.

(** An optional sign and one of the words inf, infinity, nan, in any
    letter case. *)
Definition special_word (s : list ascii) : bool :=
  let w := map Py_TOLOWER (snd (PyFloat.parse_sign s)) in
  chars_eqb w (list_ascii_of_string "inf")
  || chars_eqb w (list_ascii_of_string "infinity")
  || chars_eqb w (list_ascii_of_string "nan").

(** The text with its Unicode decimal digits written as ASCII digits
    and its Unicode white space as spaces, and the white space around
    it removed. *)
Definition stripped (v : string) : list ascii :=
  rev (dropwhile Py_ISSPACE
         (rev (dropwhile Py_ISSPACE
                 (PyFloat.transform_decimal_and_space (code_points v))))).

(** The wider grammar: decimal digits of any script count as their
    ASCII digits, white space around the text and underscores between
    two digits are dropped, and what is left is a decimal literal or
    one of the special words. *)
Definition accepted (v : string) : bool :=
  match PyFloat.remove_underscores zero (stripped v) with
  | Some u => decimal_literal u || special_word u
  | None => false
  end.

(** The literal grammar of the specification on a field. *)
Definition literal (v : string) : bool := decimal_literal (list_ascii_of_string v).

End Grammar.

(** ** Sample inputs *)
Module Sample.

Local Open Scope string_scope.

Definition prog : string := "count.py".

Definition row_10_5 : row := ["a"; "b"; "c"; "d"; "e"; "f"; "g"; "h"; "10.5"].
Definition row_4_5 : row := ["p"; "q"; "r"; "s"; "t"; "u"; "v"; "w"; "4.5"].
Definition row_text : row := ["a"; "b"; "c"; "d"; "e"; "f"; "g"; "h"; "notanumber"].
Definition row_inf : row := ["a"; "b"; "c"; "d"; "e"; "f"; "g"; "h"; "inf"].
Definition row_single : row := ["onlyone"].
Definition row_pair : row := ["x"; "y"].

(** A small disk: every other path is missing. *)
Definition disk : filesystem :=
  fun path =>
    if String.eqb path "numbers.csv" then Opened (mkReader [row_10_5; row_4_5] None)
    else if String.eqb path "text.csv" then Opened (mkReader [row_text] None)
    else if String.eqb path "mixed.csv"
      then Opened (mkReader [row_single; row_text; []; row_10_5] None)
    else if String.eqb path "pair.csv"
      then Opened (mkReader [row_10_5; row_pair; row_4_5] None)
    else if String.eqb path "inf.csv" then Opened (mkReader [row_inf] None)
    else if String.eqb path "locked.csv" then OpenRaises PermissionError
    else if String.eqb path "latin1.csv"
      then Opened (mkReader [row_10_5] (Some UnicodeDecodeError))
    else OpenRaises FileNotFoundError.

(** The same disk after other files changed. *)
Definition disk' : filesystem :=
  fun path => if String.eqb path "locked.csv" then Opened (mkReader [] None) else disk path.

Definition fifteen : Float64.float := S754_finite false 8444249301319680 (-49).

End Sample.

(** ** What the loop reads of a row *)

(** The guard of the loop body. *)
Definition more_than_one_field (r : row) : bool := (1 <? List.length r)%nat.

(** The two things the loop body looks at: the guard and field 8. *)
Definition row_view (r : row) : bool * option string :=
  (more_than_one_field r, nth_error r 8).

(** A row whose field 8 is added to the total. *)
Definition counted (r : row) : bool :=
  match effect_of r with Added _ => true | _ => false end.

(** A row that is passed over or has a field 8. *)
Definition safe_length (r : row) : Prop :=
  (List.length r < 2 \/ 9 <= List.length r)%nat.

(** ** More sample inputs *)
Module Files.

Local Open Scope string_scope.

Definition row_nan : row := ["a"; "b"; "c"; "d"; "e"; "f"; "g"; "h"; "nan"].
Definition row_other : row := ["1"; "2"; "3"; "4"; "5"; "6"; "7"; "8"; "10.5"; "more"].

Definition with_blanks : list row :=
  [[]; Sample.row_10_5; Sample.row_single; Sample.row_text; []; Sample.row_4_5].

Definition disk : filesystem :=
  fun path =>
    if String.eqb path "blanks.csv" then Opened (mkReader with_blanks None)
    else if String.eqb path "nan.csv"
      then Opened (mkReader [Sample.row_10_5; row_nan; Sample.row_4_5] None)
    else if String.eqb path "text-then-pair.csv"
      then Opened (mkReader [Sample.row_10_5; Sample.row_text; Sample.row_pair;
                             Sample.row_4_5] None)
    else if String.eqb path "other.csv"
      then Opened (mkReader [row_other; Sample.row_single] None)
    else if String.eqb path "broken.csv"
      then Opened (mkReader [Sample.row_text; Sample.row_10_5] (Some UnicodeDecodeError))
    else Sample.disk path.

(** The same disk with the rows of fewer than two fields taken out of
    [blanks.csv]. *)
Definition disk_no_blanks : filesystem :=
  fun path =>
    if String.eqb path "blanks.csv"
    then Opened (mkReader (filter more_than_one_field with_blanks) None)
    else disk path.

(** The same disk with other texts in the fields that are not field 8. *)
Definition disk_other_fields : filesystem :=
  fun path =>
    if String.eqb path "other.csv"
    then Opened (mkReader [Sample.row_10_5; []] None)
    else disk path.

(** The digits one, two, three of the Arabic-Indic set, in UTF-8. *)
Definition arabic_123 : string :=
  string_of_list_ascii (map chr [217; 161; 217; 162; 217; 163])%Z.

End Files.

(** ** The text on standard output

    [stdout] lists the texts of the print calls.  What reaches the
    output is each text followed by a line feed, and its lines are what
    the line feeds separate: a text that holds a line feed makes more
    than one line. *)

Definition LF : ascii := "010"%char.

Definition written (calls : list string) : list ascii :=
  flat_map (fun text => list_ascii_of_string text ++ [LF]) calls.

Fixpoint text_lines (s : list ascii) : list (list ascii) :=
  match s with
  | [] => []
  | c :: t =>
      if Ascii.eqb c LF then [] :: text_lines t
      else
        match text_lines t with
        | [] => [[c]]
        | l :: ls => (c :: l) :: ls
        end
  end.

Fixpoint starts_with (p s : list ascii) : bool :=
  match p, s with
  | [], _ => true
  | c :: p', d :: s' => Ascii.eqb c d && starts_with p' s'
  | _ :: _, [] => false
  end.

Definition total_phrase : list ascii :=
  list_ascii_of_string "The sum of the second column is: ".

(** A line of the output that shows a total. *)
Definition is_total_line (l : list ascii) : bool := starts_with total_phrase l.

Definition one_line (chars : list ascii) : bool :=
  forallb (fun c => negb (Ascii.eqb c LF)) chars.

(** A row whose field 8, if it has one, holds no line feed. *)
Definition field_8_one_line (r : row) : bool :=
  match nth_error r 8 with
  | Some raw => one_line (list_ascii_of_string raw)
  | None => true
  end.

(** ** A standard output that can refuse a text

    [print] above writes to a standard output that takes every text.
    A real one can refuse a text: it cannot encode it
    (UnicodeEncodeError), the reader of a pipe has gone
    (BrokenPipeError), it is closed (ValueError).  A [console] tells,
    for a text, whether [print] raises and what; the script over a
    console is the script above with [print_on] for [print]. *)
Definition console : Type := string -> option exc_class.

Definition print_on (con : console) (text : string) : Py unit :=
  match con text with
  | Some e => raise e
  | None => print text
  end.

Definition loop_body_on (con : console) (r : row) : Py unit :=
  if (1 <? List.length r)%nat then
    try_except
      (t <- load_total ;;
       field <- getitem r 8 ;;
       x <- float field ;;
       store_total (number_add t x))
      ValueError
      (field <- getitem r 8 ;;
       print_on con ("Skipping invalid value: " ++ field)%string)
  else ret tt.

Fixpoint for_rows_on (con : console) (rs : list row) : Py unit :=
  match rs with
  | [] => ret tt
  | r :: rest => loop_body_on con r ;; for_rows_on con rest
  end.

Definition for_reader_on (con : console) (rd : reader) : Py unit :=
  for_rows_on con (rows rd) ;;
  match failure rd with
  | Some e => raise e
  | None => ret tt
  end.

Definition sum_second_column_on (con : console) (fs : filesystem) (file_path : string)
  : Py number :=
  store_total (PyInt 0) ;;
  try_except
    (match fs file_path with
     | OpenRaises e => raise e
     | Opened rd => for_reader_on con rd
     end)
    FileNotFoundError
    (print_on con ("File not found: " ++ file_path)%string) ;;
  load_total.

Definition script_on (con : console) (fs : filesystem) (argv : list string) : Py unit :=
  file_path <- getitem argv 1 ;;
  result <- sum_second_column_on con fs file_path ;;
  print_on con (final_line result).

Definition run_on (con : console) (fs : filesystem) (argv : list string)
  : outcome unit * list string :=
  let '(o, st) := script_on con fs argv initial_state in (o, stdout st).

(** The standard output that takes every text. *)
Definition reliable : console := fun _ => None.

(** An exception that the console raises for some text. *)
Definition from_console (con : console) (e : exc_class) : Prop :=
  exists text, con text = Some e.

(** A sample: a standard output that cannot encode one diagnostic. *)
Definition picky : console :=
  fun text =>
    if String.eqb text "Skipping invalid value: notanumber"
    then Some UnicodeEncodeError else None.

(** * Properties of the script *)

(** ** One row *)

Lemma loop_body_effect (r : row) (t : number) (out : list string) :
  loop_body r (mkState (Some t) out) =
  match effect_of r with
  | Passed => (Returned tt, mkState (Some t) out)
  | Added x => (Returned tt, mkState (Some (number_add t x)) out)
  | Reported raw => (Returned tt, mkState (Some t) (out ++ [skip_line raw]))
  | NoField => (Raised IndexError, mkState (Some t) out)
  end.
Proof.
  unfold loop_body, effect_of.
  destruct (1 <? List.length r)%nat; [|reflexivity].
  unfold try_except, bind, load_total, getitem, float; cbn [total stdout].
  destruct (nth_error r 8) as [field|]; [|reflexivity].
  unfold ret at 1.
  destruct (PyFloat.PyFloat_FromString field) as [x|]; reflexivity.
Qed.

Lemma effect_short (r : row) : (List.length r < 2)%nat -> effect_of r = Passed.
Proof.
  intros H. unfold effect_of.
  destruct (Nat.ltb_spec 1 (List.length r)); [lia|reflexivity].
Qed.

Lemma effect_no_field (r : row) :
  (2 <= List.length r <= 8)%nat -> effect_of r = NoField.
Proof.
  intros [H2 H8]. unfold effect_of.
  destruct (Nat.ltb_spec 1 (List.length r)); [|lia].
  destruct (nth_error r 8) eqn:E; [|reflexivity].
  assert (8 < List.length r)%nat by (apply nth_error_Some; congruence). lia.
Qed.

Lemma has_field_length (r : row) :
  (List.length r < 2 \/ 9 <= List.length r)%nat -> has_field r = true.
Proof.
  intros H. unfold has_field, effect_of.
  destruct (Nat.ltb_spec 1 (List.length r)); [|reflexivity].
  destruct (nth_error r 8) eqn:E.
  - destruct (PyFloat.PyFloat_FromString s); reflexivity.
  - apply nth_error_None in E. lia.
Qed.

(** ** The loop *)

(** Over rows that all have a field 8 (or fewer than two fields) the
    loop ends normally, with the column sum in [total] and one
    diagnostic per field that did not convert. *)
Lemma for_rows_complete (rs : list row) :
  forallb has_field rs = true ->
  forall t out,
    for_rows rs (mkState (Some t) out) =
    (Returned tt, mkState (Some (sum_from t rs)) (out ++ diagnostics rs)).
Proof.
  induction rs as [|r rs IH]; intros Hall t out.
  - cbn. now rewrite app_nil_r.
  - cbn [forallb] in Hall. apply andb_prop in Hall as [Hr Hrs].
    cbn [for_rows]. unfold bind at 1. rewrite loop_body_effect.
    unfold sum_from, diagnostics. cbn [fold_left flat_map].
    unfold has_field in Hr.
    destruct (effect_of r) eqn:E; try discriminate;
      rewrite (IH Hrs); unfold sum_from, diagnostics;
      rewrite ?app_nil_l, <- ?app_assoc; reflexivity.
Qed.

(** The first row of two to eight fields stops the loop with
    IndexError; what the rows before it did stays done. *)
Lemma for_rows_stops (pre : list row) (r : row) (post : list row) :
  forallb has_field pre = true ->
  effect_of r = NoField ->
  forall t out,
    for_rows (pre ++ r :: post) (mkState (Some t) out) =
    (Raised IndexError, mkState (Some (sum_from t pre)) (out ++ diagnostics pre)).
Proof.
  induction pre as [|p pre IH]; intros Hall Hr t out.
  - cbn [app for_rows]. unfold bind. rewrite loop_body_effect, Hr.
    cbn. now rewrite app_nil_r.
  - cbn [forallb] in Hall. apply andb_prop in Hall as [Hp Hpre].
    cbn [app for_rows]. unfold bind at 1. rewrite loop_body_effect.
    unfold sum_from, diagnostics. cbn [fold_left flat_map].
    unfold has_field in Hp.
    destruct (effect_of p) eqn:E; try discriminate;
      rewrite (IH Hpre Hr); unfold sum_from, diagnostics;
      rewrite ?app_nil_l, <- ?app_assoc; reflexivity.
Qed.

(** Every list of rows either has a field 8 wherever one is read, or
    splits at the first row that has none. *)
Lemma rows_split (rs : list row) :
  forallb has_field rs = true \/
  exists pre r post,
    rs = pre ++ r :: post /\ forallb has_field pre = true /\ effect_of r = NoField.
Proof.
  induction rs as [|r rs IH]; [now left|].
  destruct (has_field r) eqn:Hr.
  - destruct IH as [IH|(pre & q & post & -> & Hpre & Hq)].
    + left. cbn. now rewrite Hr.
    + right. exists (r :: pre), q, post. cbn. now rewrite Hr.
  - right. exists [], r, rs. repeat split.
    unfold has_field in Hr. destruct (effect_of r); try discriminate. reflexivity.
Qed.

(** ** The function *)

Lemma only_FileNotFoundError (e : exc_class) :
  issubclass e FileNotFoundError = true <-> e = FileNotFoundError.
Proof. split; [destruct e; cbn; congruence | intros ->; reflexivity]. Qed.

Lemma sum_open_raises (fs : filesystem) (path : string) (e : exc_class) (st : state) :
  fs path = OpenRaises e ->
  sum_second_column fs path st =
  if issubclass e FileNotFoundError
  then (Returned (PyInt 0), mkState (Some (PyInt 0)) (stdout st ++ [missing_line path]))
  else (Raised e, mkState (Some (PyInt 0)) (stdout st)).
Proof.
  intros H. unfold sum_second_column, bind, store_total, try_except, raise.
  rewrite H. destruct (issubclass e FileNotFoundError); reflexivity.
Qed.

Lemma sum_rows_complete (fs : filesystem) (path : string) (rd : reader) (st : state) :
  fs path = Opened rd ->
  forallb has_field (rows rd) = true ->
  sum_second_column fs path st =
  match failure rd with
  | None =>
      (Returned (column_sum (rows rd)),
       mkState (Some (column_sum (rows rd))) (stdout st ++ diagnostics (rows rd)))
  | Some e =>
      if issubclass e FileNotFoundError
      then (Returned (column_sum (rows rd)),
            mkState (Some (column_sum (rows rd)))
                    ((stdout st ++ diagnostics (rows rd)) ++ [missing_line path]))
      else (Raised e,
            mkState (Some (column_sum (rows rd))) (stdout st ++ diagnostics (rows rd)))
  end.
Proof.
  intros H Hall. unfold sum_second_column, bind, store_total, try_except.
  rewrite H. unfold for_reader, bind. rewrite (for_rows_complete _ Hall).
  destruct (failure rd) as [e|]; [|reflexivity].
  unfold raise. destruct (issubclass e FileNotFoundError); reflexivity.
Qed.

Lemma sum_rows_stop (fs : filesystem) (path : string) (rd : reader) (st : state)
      (pre : list row) (r : row) (post : list row) :
  fs path = Opened rd ->
  rows rd = pre ++ r :: post ->
  forallb has_field pre = true ->
  effect_of r = NoField ->
  sum_second_column fs path st =
  (Raised IndexError, mkState (Some (column_sum pre)) (stdout st ++ diagnostics pre)).
Proof.
  intros H Hrows Hpre Hr. unfold sum_second_column, bind, store_total, try_except.
  rewrite H. unfold for_reader, bind. rewrite Hrows, (for_rows_stops _ _ _ Hpre Hr).
  reflexivity.
Qed.

(** ** The program *)

Lemma run_with_path (fs : filesystem) (argv : list string) (path : string) :
  nth_error argv 1 = Some path ->
  run fs argv =
  match sum_second_column fs path initial_state with
  | (Returned result, st) => (Returned tt, stdout st ++ [final_line result])
  | (Raised e, st) => (Raised e, stdout st)
  end.
Proof.
  intros H. unfold run, script, bind, getitem. rewrite H. unfold ret at 1.
  destruct (sum_second_column fs path initial_state) as [[result|e] st]; reflexivity.
Qed.

Lemma prefix_append (a b : string) : String.prefix a (a ++ b)%string = true.
Proof.
  induction a as [|c a IH]; cbn.
  - now destruct b.
  - destruct (ascii_dec c c); [exact IH|congruence].
Qed.

Lemma final_line_is_final (v : number) : is_final_line (final_line v) = true.
Proof. apply prefix_append. Qed.

Lemma skip_line_not_final (raw : string) : is_final_line (skip_line raw) = false.
Proof. reflexivity. Qed.

Lemma missing_line_not_final (path : string) : is_final_line (missing_line path) = false.
Proof. reflexivity. Qed.

Lemma diagnostics_not_final (rs : list row) :
  filter is_final_line (diagnostics rs) = [].
Proof.
  induction rs as [|r rs IH]; [reflexivity|].
  unfold diagnostics in *. cbn [flat_map].
  destruct (effect_of r); cbn [app filter];
    rewrite ?skip_line_not_final; exact IH.
Qed.

(** ** The statements of the specification *)

(** Supporting fact: a row of two to eight fields ends the whole run
    with IndexError; only the diagnostics of the rows before it were
    printed, and no total. *)
Lemma short_row_aborts_run (fs : filesystem) (argv : list string) (path : string)
      (rd : reader) (pre : list row) (r : row) (post : list row) :
  nth_error argv 1 = Some path ->
  fs path = Opened rd ->
  rows rd = pre ++ r :: post ->
  forallb has_field pre = true ->
  (2 <= List.length r <= 8)%nat ->
  run fs argv = (Raised IndexError, diagnostics pre).
Proof.
  intros Hargv Hfs Hrows Hpre Hr.
  rewrite (run_with_path _ _ _ Hargv).
  rewrite (sum_rows_stop _ _ _ _ _ _ _ Hfs Hrows Hpre (effect_no_field _ Hr)).
  reflexivity.
Qed.

(** Supporting fact: an exception raised while the rows are read, other
    than FileNotFoundError, ends the run without a total. *)
Lemma read_error_aborts_run (fs : filesystem) (argv : list string) (path : string)
      (rd : reader) (e : exc_class) :
  nth_error argv 1 = Some path ->
  fs path = Opened rd ->
  forallb has_field (rows rd) = true ->
  failure rd = Some e ->
  e <> FileNotFoundError ->
  run fs argv = (Raised e, diagnostics (rows rd)).
Proof.
  intros Hargv Hfs Hall Hfail Hne.
  rewrite (run_with_path _ _ _ Hargv), (sum_rows_complete _ _ _ _ Hfs Hall), Hfail.
  destruct (issubclass e FileNotFoundError) eqn:E; [|reflexivity].
  apply only_FileNotFoundError in E. contradiction.
Qed.

Lemma Forall_has_field (rs : list row) :
  Forall (fun r => (List.length r < 2 \/ 9 <= List.length r)%nat) rs ->
  forallb has_field rs = true.
Proof.
  intros H. apply forallb_forall. intros r Hin.
  apply has_field_length. revert r Hin. now apply Forall_forall.
Qed.

(** C1, as stated, fails: a file that exists but may not be read makes
    [open] raise PermissionError, which no handler catches; the program
    ends abnormally and prints no final line.  So it is not true that
    every input file leads to normal termination with a final line. *)
Lemma C1_unreadable_file_refutes :
  ~ (forall (fs : filesystem) (argv : list string) (path : string),
        nth_error argv 1 = Some path ->
        exists out v, run fs argv = (Returned tt, out ++ [final_line v])).
Proof.
  intros H.
  destruct (H Sample.disk [Sample.prog; "locked.csv"%string] "locked.csv"%string eq_refl)
    as (out & v & E).
  assert (R : run Sample.disk [Sample.prog; "locked.csv"%string]
              = (Raised PermissionError, [])) by (vm_compute; reflexivity).
  rewrite R in E. discriminate E.
Qed.

(** C1, amended: when the file is missing, or opens, is read to its end
    without a read error and has only rows of fewer than 2 or at least
    9 fields, the program ends normally and the final line is printed
    exactly once, as the last line, after the diagnostics. *)
Theorem C1_total_line_printed_once
        (fs : filesystem) (argv : list string) (path : string) :
  nth_error argv 1 = Some path ->
  (fs path = OpenRaises FileNotFoundError \/
   exists rd, fs path = Opened rd /\ failure rd = None /\
              Forall (fun r => (List.length r < 2 \/ 9 <= List.length r)%nat) (rows rd)) ->
  exists out v,
    run fs argv = (Returned tt, out ++ [final_line v]) /\
    filter is_final_line (out ++ [final_line v]) = [final_line v].
Proof.
  intros Hargv [Hfs|(rd & Hfs & Hfail & Hrows)];
    rewrite (run_with_path _ _ _ Hargv).
  - rewrite (sum_open_raises _ _ _ _ Hfs).
    change (issubclass FileNotFoundError FileNotFoundError) with true.
    cbn [stdout initial_state app].
    exists [missing_line path], (PyInt 0). split; [reflexivity|].
    cbn [app filter]. now rewrite missing_line_not_final, final_line_is_final.
  - rewrite (sum_rows_complete _ _ _ _ Hfs (Forall_has_field _ Hrows)), Hfail.
    cbn [stdout initial_state app].
    exists (diagnostics (rows rd)), (column_sum (rows rd)). split; [reflexivity|].
    rewrite filter_app, diagnostics_not_final. cbn [app filter].
    now rewrite final_line_is_final.
Qed.

Lemma C1_total_line_printed_once_witness :
  exists out v,
    run Sample.disk [Sample.prog; "mixed.csv"%string] = (Returned tt, out ++ [final_line v]) /\
    filter is_final_line (out ++ [final_line v]) = [final_line v].
Proof.
  apply (C1_total_line_printed_once Sample.disk
           [Sample.prog; "mixed.csv"%string] "mixed.csv"%string eq_refl).
  right. exists (mkReader [Sample.row_single; Sample.row_text; []; Sample.row_10_5] None).
  split; [reflexivity|]. split; [reflexivity|].
  unfold rows. repeat constructor; cbn [List.length Sample.row_single Sample.row_text Sample.row_10_5]; lia.
Defined.

(** C2: whenever [sum_second_column] returns, the value returned is the
    sum, taken in file order from the integer zero, of the field-8
    values that converted to a float, over the rows of more than one
    field that were read; no other row contributes. *)
Theorem C2_returned_total_is_column_sum
        (fs : filesystem) (path : string) (st st' : state) (v : number) :
  sum_second_column fs path st = (Returned v, st') ->
  v = column_sum (rows_read fs path).
Proof.
  unfold rows_read. destruct (fs path) as [e|rd] eqn:Hfs.
  - rewrite (sum_open_raises _ _ _ _ Hfs).
    destruct (issubclass e FileNotFoundError); intros H; inversion H; reflexivity.
  - destruct (rows_split (rows rd)) as [Hall|(pre & r & post & Hrows & Hpre & Hr)].
    + rewrite (sum_rows_complete _ _ _ _ Hfs Hall).
      destruct (failure rd) as [e|];
        [destruct (issubclass e FileNotFoundError)|];
        intros H; inversion H; reflexivity.
    + rewrite (sum_rows_stop _ _ _ _ _ _ _ Hfs Hrows Hpre Hr). discriminate.
Qed.

Lemma C2_returned_total_is_column_sum_witness :
  PyFloat Sample.fifteen = column_sum (rows_read Sample.disk "numbers.csv").
Proof.
  apply (C2_returned_total_is_column_sum Sample.disk "numbers.csv" initial_state
           (mkState (Some (PyFloat Sample.fifteen)) [])).
  vm_compute. reflexivity.
Defined.

(** C3: for a row of 2 to 8 fields the guard [len(row) > 1] lets the row
    through, [row[8]] raises IndexError, IndexError is not a ValueError,
    so the handler of the row does not catch it: the loop body and the
    loop end with IndexError. *)
Theorem C3_short_row_raises_IndexError (r : row) :
  (2 <= List.length r <= 8)%nat ->
  forall (t : number) (out : list string) (rest : list row),
    (1 <? List.length r)%nat = true /\
    getitem r 8 (mkState (Some t) out) = (Raised IndexError, mkState (Some t) out) /\
    issubclass IndexError ValueError = false /\
    loop_body r (mkState (Some t) out) = (Raised IndexError, mkState (Some t) out) /\
    for_rows (r :: rest) (mkState (Some t) out) = (Raised IndexError, mkState (Some t) out).
Proof.
  intros Hr t out rest.
  assert (Hbody : loop_body r (mkState (Some t) out)
                  = (Raised IndexError, mkState (Some t) out))
    by (rewrite loop_body_effect, (effect_no_field _ Hr); reflexivity).
  repeat split.
  - apply Nat.ltb_lt. lia.
  - unfold getitem. destruct (nth_error r 8) eqn:E; [|reflexivity].
    assert (8 < List.length r)%nat by (apply nth_error_Some; congruence). lia.
  - exact Hbody.
  - cbn [for_rows]. unfold bind. now rewrite Hbody.
Qed.

Lemma C3_short_row_raises_IndexError_witness :
  (1 <? List.length Sample.row_pair)%nat = true /\
  getitem Sample.row_pair 8 (mkState (Some (PyInt 0)) [])
    = (Raised IndexError, mkState (Some (PyInt 0)) []) /\
  issubclass IndexError ValueError = false /\
  loop_body Sample.row_pair (mkState (Some (PyInt 0)) [])
    = (Raised IndexError, mkState (Some (PyInt 0)) []) /\
  for_rows [Sample.row_pair; Sample.row_4_5] (mkState (Some (PyInt 0)) [])
    = (Raised IndexError, mkState (Some (PyInt 0)) []).
Proof.
  apply (C3_short_row_raises_IndexError Sample.row_pair). cbn. lia.
Defined.

(** C4: for a path that does not exist the function prints
    [File not found: <path>], reads no row and returns the integer 0;
    the program then prints the total [0] and ends normally. *)
Theorem C4_missing_file_reported
        (fs : filesystem) (argv : list string) (path : string) :
  nth_error argv 1 = Some path ->
  fs path = OpenRaises FileNotFoundError ->
  (forall st, sum_second_column fs path st =
              (Returned (PyInt 0),
               mkState (Some (PyInt 0)) (stdout st ++ [("File not found: " ++ path)%string]))) /\
  rows_read fs path = [] /\
  run fs argv =
  (Returned tt,
   [("File not found: " ++ path)%string; "The sum of the second column is: 0"%string]).
Proof.
  intros Hargv Hfs. repeat split.
  - intros st. now rewrite (sum_open_raises _ _ _ _ Hfs).
  - unfold rows_read. now rewrite Hfs.
  - rewrite (run_with_path _ _ _ Hargv), (sum_open_raises _ _ _ _ Hfs). reflexivity.
Qed.

Lemma C4_missing_file_reported_witness :
  run Sample.disk [Sample.prog; "/nonexistent/file.csv"%string] =
  (Returned tt,
   ["File not found: /nonexistent/file.csv"%string;
    "The sum of the second column is: 0"%string]).
Proof.
  apply (C4_missing_file_reported Sample.disk
           [Sample.prog; "/nonexistent/file.csv"%string] "/nonexistent/file.csv"%string);
    reflexivity.
Defined.

(** C5, as stated, fails: for a file that exists but may not be read,
    [open] raises PermissionError; nothing is logged, the function does
    not return and no total is printed. *)
Lemma C5_unreadable_file_not_recovered :
  sum_second_column Sample.disk "locked.csv" initial_state
    = (Raised PermissionError, mkState (Some (PyInt 0)) []) /\
  run Sample.disk [Sample.prog; "locked.csv"%string] = (Raised PermissionError, []).
Proof. split; vm_compute; reflexivity. Qed.

(** C5, amended: a failure to open the file is recovered exactly when it
    is FileNotFoundError: then it is logged, no row is read, the total
    stays the integer 0 and is printed.  Any other failure of [open]
    leaves the function uncaught: nothing is printed and the program
    ends with that exception. *)
Theorem C5_only_missing_file_recovered
        (fs : filesystem) (argv : list string) (path : string) (e : exc_class) :
  nth_error argv 1 = Some path ->
  fs path = OpenRaises e ->
  (e = FileNotFoundError ->
   run fs argv = (Returned tt, [missing_line path; final_line (PyInt 0)])) /\
  (e <> FileNotFoundError -> run fs argv = (Raised e, [])).
Proof.
  intros Hargv Hfs.
  rewrite (run_with_path _ _ _ Hargv), (sum_open_raises _ _ _ _ Hfs).
  split.
  - intros ->. reflexivity.
  - intros Hne. destruct (issubclass e FileNotFoundError) eqn:E; [|reflexivity].
    apply only_FileNotFoundError in E. contradiction.
Qed.

Lemma C5_only_missing_file_recovered_witness :
  (PermissionError = FileNotFoundError ->
   run Sample.disk [Sample.prog; "locked.csv"%string]
     = (Returned tt, [missing_line "locked.csv"; final_line (PyInt 0)])) /\
  (PermissionError <> FileNotFoundError ->
   run Sample.disk [Sample.prog; "locked.csv"%string] = (Raised PermissionError, [])).
Proof.
  apply (C5_only_missing_file_recovered Sample.disk
           [Sample.prog; "locked.csv"%string] "locked.csv"%string PermissionError);
    reflexivity.
Defined.

(** C6: a row whose field 8 exists and does not convert prints exactly
    one line, [Skipping invalid value: <raw text>], leaves [total] as
    it was, and the loop goes on with the next row. *)
Theorem C6_invalid_value_reported (r : row) (raw : string) :
  nth_error r 8 = Some raw ->
  PyFloat.PyFloat_FromString raw = None ->
  forall (t : number) (out : list string) (rest : list row),
    loop_body r (mkState (Some t) out) =
    (Returned tt, mkState (Some t) (out ++ [("Skipping invalid value: " ++ raw)%string])) /\
    for_rows (r :: rest) (mkState (Some t) out) =
    for_rows rest (mkState (Some t) (out ++ [("Skipping invalid value: " ++ raw)%string])).
Proof.
  intros Hfield Hbad t out rest.
  assert (Heff : effect_of r = Reported raw).
  { unfold effect_of.
    assert (8 < List.length r)%nat by (apply nth_error_Some; congruence).
    destruct (Nat.ltb_spec 1 (List.length r)); [|lia].
    now rewrite Hfield, Hbad. }
  assert (Hbody : loop_body r (mkState (Some t) out)
                  = (Returned tt, mkState (Some t) (out ++ [skip_line raw])))
    by (rewrite loop_body_effect, Heff; reflexivity).
  split; [exact Hbody|].
  cbn [for_rows]. unfold bind at 1. now rewrite Hbody.
Qed.

Lemma C6_invalid_value_reported_witness :
  loop_body Sample.row_text (mkState (Some (PyInt 0)) []) =
  (Returned tt, mkState (Some (PyInt 0)) ["Skipping invalid value: notanumber"%string]) /\
  for_rows [Sample.row_text; Sample.row_4_5] (mkState (Some (PyInt 0)) []) =
  for_rows [Sample.row_4_5]
           (mkState (Some (PyInt 0)) ["Skipping invalid value: notanumber"%string]).
Proof.
  apply (C6_invalid_value_reported Sample.row_text "notanumber");
    vm_compute; reflexivity.
Defined.

(** C7: a row of fewer than two fields changes nothing: [total] and the
    output stay as they were, and the loop goes on with the next row. *)
Theorem C7_short_row_skipped (r : row) :
  (List.length r < 2)%nat ->
  forall (st : state) (rest : list row),
    loop_body r st = (Returned tt, st) /\
    for_rows (r :: rest) st = for_rows rest st.
Proof.
  intros Hr st rest.
  assert (Hbody : loop_body r st = (Returned tt, st)).
  { unfold loop_body. destruct (Nat.ltb_spec 1 (List.length r)); [lia|reflexivity]. }
  split; [exact Hbody|].
  cbn [for_rows]. unfold bind at 1. now rewrite Hbody.
Qed.

Lemma C7_short_row_skipped_witness :
  loop_body Sample.row_single initial_state = (Returned tt, initial_state) /\
  for_rows [Sample.row_single; Sample.row_4_5] initial_state
    = for_rows [Sample.row_4_5] initial_state.
Proof.
  apply (C7_short_row_skipped Sample.row_single). cbn. lia.
Defined.

(** What [sum_second_column] returns or raises is fixed by what opening
    the path gives; the state it starts from plays no part. *)
Lemma sum_outcome_of_file (fs1 fs2 : filesystem) (path : string) (st1 st2 : state) :
  fs1 path = fs2 path ->
  fst (sum_second_column fs1 path st1) = fst (sum_second_column fs2 path st2).
Proof.
  intros Hsame. destruct (fs2 path) as [e|rd] eqn:H2.
  - rewrite (sum_open_raises _ _ _ _ Hsame), (sum_open_raises _ _ _ _ H2).
    destruct (issubclass e FileNotFoundError); reflexivity.
  - destruct (rows_split (rows rd)) as [Hall|(pre & r & post & Hrows & Hpre & Hr)].
    + rewrite (sum_rows_complete _ _ _ _ Hsame Hall), (sum_rows_complete _ _ _ _ H2 Hall).
      destruct (failure rd) as [e|];
        [destruct (issubclass e FileNotFoundError)|]; reflexivity.
    + rewrite (sum_rows_stop _ _ _ _ _ _ _ Hsame Hrows Hpre Hr),
              (sum_rows_stop _ _ _ _ _ _ _ H2 Hrows Hpre Hr).
      reflexivity.
Qed.

(** C9: two runs with the same arguments, on disks that give the same
    thing for the path named on the command line, end the same way and
    print the same lines, the total among them; and the value
    [sum_second_column] returns depends on the file alone. *)
Theorem C9_same_file_same_total (fs1 fs2 : filesystem) (argv : list string) :
  (forall path, nth_error argv 1 = Some path -> fs1 path = fs2 path) ->
  run fs1 argv = run fs2 argv /\
  (forall path st1 st2,
      nth_error argv 1 = Some path ->
      fst (sum_second_column fs1 path st1) = fst (sum_second_column fs2 path st2)).
Proof.
  intros Hsame. split.
  - unfold run, script, bind, getitem.
    destruct (nth_error argv 1) as [path|] eqn:Hargv; [|reflexivity].
    unfold ret at 1. unfold ret at 1. unfold sum_second_column.
    now rewrite (Hsame path eq_refl).
  - intros path st1 st2 Hargv. apply sum_outcome_of_file. now apply Hsame.
Qed.

Lemma C9_same_file_same_total_witness :
  run Sample.disk [Sample.prog; "numbers.csv"%string]
    = run Sample.disk' [Sample.prog; "numbers.csv"%string] /\
  (forall path st1 st2,
      nth_error [Sample.prog; "numbers.csv"%string] 1 = Some path ->
      fst (sum_second_column Sample.disk path st1)
        = fst (sum_second_column Sample.disk' path st2)).
Proof.
  apply (C9_same_file_same_total Sample.disk Sample.disk'
           [Sample.prog; "numbers.csv"%string]).
  intros path H. injection H as <-. reflexivity.
Defined.

(** C10: with no command-line argument, [sys.argv[1]] raises IndexError
    at module level; whatever the disk holds, nothing is printed,
    [sum_second_column] is not reached and the program ends with the
    exception. *)
Theorem C10_missing_argument_aborts (fs : filesystem) (argv : list string) :
  (List.length argv <= 1)%nat ->
  script fs argv initial_state = (Raised IndexError, initial_state) /\
  run fs argv = (Raised IndexError, []).
Proof.
  intros Hlen.
  assert (Hnone : nth_error argv 1 = None) by (apply nth_error_None; lia).
  unfold run, script, bind, getitem. rewrite Hnone. split; reflexivity.
Qed.

Lemma C10_missing_argument_aborts_witness :
  script Sample.disk [Sample.prog] initial_state = (Raised IndexError, initial_state) /\
  run Sample.disk [Sample.prog] = (Raised IndexError, []).
Proof.
  apply (C10_missing_argument_aborts Sample.disk [Sample.prog]). cbn. lia.
Defined.

(** ** What [float] accepts *)

Lemma zero_digit_is_digit (c : ascii) : is_zero_digit c = true -> isdigit c = true.
Proof.
  unfold is_zero_digit, isdigit. intros H. apply Z.eqb_eq in H. rewrite H. reflexivity.
Qed.

(** Skipping zeros and then reading digits reads the same characters as
    reading digits at once. *)
Lemma span_zeros_then_digits (s zs s1 ds s2 : list ascii) :
  span is_zero_digit s = (zs, s1) ->
  span isdigit s1 = (ds, s2) ->
  span isdigit s = (zs ++ ds, s2).
Proof.
  revert zs. induction s as [|c s IH]; intros zs Hz Hd.
  - cbn in Hz. injection Hz as <- <-. exact Hd.
  - cbn [span] in Hz. destruct (is_zero_digit c) eqn:Ec.
    + destruct (span is_zero_digit s) as [zs' s1'] eqn:Ez.
      injection Hz as <- <-.
      cbn [span app]. rewrite (zero_digit_is_digit _ Ec), (IH zs' eq_refl Hd).
      reflexivity.
    + injection Hz as <- <-. exact Hd.
Qed.


Lemma fraction_digits (b : bool) (s fz fd s3 : list ascii) :
  PyFloat.parse_fraction b s = (fz, fd, s3) ->
  match after_point s with
  | Some t => span isdigit t
  | None => ([], s)
  end = (fz ++ fd, s3).
Proof.
  unfold PyFloat.parse_fraction. destruct (after_point s) as [t|].
  - destruct b.
    + destruct (span is_zero_digit t) as [z t1] eqn:Ez.
      destruct (span isdigit t1) as [d t2] eqn:Ed.
      intros H. injection H as <- <- <-.
      exact (span_zeros_then_digits _ _ _ _ _ Ez Ed).
    + destruct (span isdigit t) as [d t2] eqn:Ed.
      intros H. injection H as <- <- <-. reflexivity.
  - intros H. injection H as <- <- <-. reflexivity.
Qed.






(** Without an underscore the copy loop returns the text as it is. *)
Lemma remove_underscores_none (s : list ascii) (prev : ascii) :
  Ascii.eqb prev "_" = false ->
  existsb (Ascii.eqb "_") s = false ->
  PyFloat.remove_underscores prev s = Some s.
Proof.
  revert prev. induction s as [|c t IH]; intros prev Hprev Hs.
  - cbn. now rewrite Hprev.
  - cbn [existsb] in Hs. apply orb_false_elim in Hs as [Hc Ht].
    rewrite Ascii.eqb_sym in Hc.
    cbn [PyFloat.remove_underscores]. rewrite Hc, Hprev. cbn [andb].
    now rewrite (IH c Hc Ht).
Qed.





(** ** The scenarios of the specification *)

(** Scenario A: two rows, 10.5 and 4.5. *)
Example scenario_numbers :
  run Sample.disk [Sample.prog; "numbers.csv"%string]
  = (Returned tt, ["The sum of the second column is: 15.0"%string]).
Proof. vm_compute. reflexivity. Qed.

(** Scenario B: one row whose field 8 is not a number. *)
Example scenario_text :
  run Sample.disk [Sample.prog; "text.csv"%string]
  = (Returned tt, ["Skipping invalid value: notanumber"%string;
                   "The sum of the second column is: 0"%string]).
Proof. vm_compute. reflexivity. Qed.

(** Scenario D, among other rows: a row of one field and an empty row
    leave no trace. *)
Example scenario_mixed :
  run Sample.disk [Sample.prog; "mixed.csv"%string]
  = (Returned tt, ["Skipping invalid value: notanumber"%string;
                   "The sum of the second column is: 10.5"%string]).
Proof. vm_compute. reflexivity. Qed.

(** A row of two fields after a good row: the run ends with IndexError
    and the sum of the rows before it is lost. *)
Example scenario_pair :
  run Sample.disk [Sample.prog; "pair.csv"%string] = (Raised IndexError, []).
Proof. vm_compute. reflexivity. Qed.

(** A file that cannot be decoded: the error is a ValueError by class,
    but it is raised by the [for] statement, outside the [try] of the
    row, and ends the run. *)
Example scenario_undecodable :
  issubclass UnicodeDecodeError ValueError = true /\
  run Sample.disk [Sample.prog; "latin1.csv"%string] = (Raised UnicodeDecodeError, []).
Proof. split; vm_compute; reflexivity. Qed.

(** Some conversions and their printed form. *)
Example float_samples :
  PyFloat.PyFloat_FromString "0.1" = Some (S754_finite false 7205759403792794 (-56)) /\
  PyFloat.PyFloat_FromString " 1e400 " = Some (S754_infinity false) /\
  PyFloat.PyFloat_FromString "-0" = Some (S754_zero true) /\
  PyFloat.PyFloat_FromString "1e" = None /\
  PyFloat.PyFloat_FromString "1__0" = None /\
  PyFloat.PyFloat_FromString "" = None /\
  PyStr.float_repr (S754_finite false 7205759403792794 (-56)) = "0.1"%string /\
  PyStr.float_repr (Float64.add (S754_finite false 7205759403792794 (-56))
                                (S754_finite false 7205759403792794 (-55)))
    = "0.30000000000000004"%string /\
  PyStr.float_repr (S754_finite false 5000000000000000 1) = "1e+16"%string.
Proof. repeat split; vm_compute; reflexivity. Qed.

(** Decimal digits of another script are read as digits: the field is
    outside the literal grammar of the specification and is counted. *)
Example unicode_digits :
  code_points Files.arabic_123 = [1633; 1634; 1635] /\
  PyFloat.PyFloat_FromString Files.arabic_123
    = Some (S754_finite false 8655355533852672 (-46)) /\
  Grammar.literal Files.arabic_123 = false /\
  Grammar.accepted Files.arabic_123 = true.
Proof. repeat split; vm_compute; reflexivity. Qed.

(** ** The wider grammar is exact

    Every text of the wider grammar that is not longer than
    [MAX_DIGITS] characters is converted: the grammar describes what
    [float] accepts, and not only a superset of it. *)

Lemma Zlength_nonneg {A : Type} (l : list A) : 0 <= Zlength l.
Proof. rewrite Zlength_correct. lia. Qed.

Lemma Zlength_app {A : Type} (l l' : list A) :
  Zlength (l ++ l') = Zlength l + Zlength l'.
Proof. rewrite !Zlength_correct, length_app. lia. Qed.

Lemma span_app (p : ascii -> bool) (s a b : list ascii) :
  span p s = (a, b) -> s = a ++ b.
Proof.
  revert a b. induction s as [|c s IH]; intros a b H; cbn in H.
  - now injection H as <- <-.
  - destruct (p c).
    + destruct (span p s) as [a' b']. injection H as <- <-.
      cbn. now rewrite <- (IH a' b' eq_refl).
    + now injection H as <- <-.
Qed.

Lemma parse_sign_length (s : list ascii) :
  Zlength (snd (PyFloat.parse_sign s)) <= Zlength s.
Proof.
  unfold PyFloat.parse_sign.
  destruct s as [|c t]; [cbn; lia|].
  assert (Ht : Zlength t <= Zlength (c :: t)) by (rewrite Zlength_cons; lia).
  destruct c as [[] [] [] [] [] [] [] []]; cbn [snd]; solve [exact Ht | lia].
Qed.

Lemma after_point_length (s t : list ascii) :
  after_point s = Some t -> Zlength s = Zlength t + 1.
Proof.
  destruct s as [|c s]; [discriminate|]. cbn [after_point].
  destruct (Ascii.eqb c "."); [|discriminate].
  intros H. injection H as <-. rewrite Zlength_cons. lia.
Qed.

Lemma fraction_length (b : bool) (s fz fd s3 : list ascii) :
  PyFloat.parse_fraction b s = (fz, fd, s3) ->
  Zlength fz + Zlength fd + Zlength s3 <= Zlength s.
Proof.
  intros H. pose proof (fraction_digits _ _ _ _ _ H) as E.
  pose proof (Zlength_nonneg s3).
  destruct (after_point s) as [t|] eqn:Et.
  - apply span_app in E. apply after_point_length in Et.
    rewrite Et, E, !Zlength_app. lia.
  - injection E as E1 E2. subst s3.
    destruct fz, fd; try discriminate. cbn. lia.
Qed.

Lemma exponent_part_read (s : list ascii) :
  Grammar.exponent_part s = true -> snd (PyFloat.parse_exponent s) = [].
Proof.
  destruct s as [|c t]; [reflexivity|].
  unfold PyFloat.parse_exponent, Grammar.exponent_part, Grammar.is_exponent_mark.
  destruct ((ord c =? 101) || (ord c =? 69)); [|discriminate].
  destruct (PyFloat.parse_sign t) as [esign t1].
  destruct (span is_zero_digit t1) as [ez t2] eqn:Ez.
  destruct (span isdigit t2) as [ed t3] eqn:Ed.
  cbn [snd]. rewrite (span_zeros_then_digits _ _ _ _ _ Ez Ed).
  destruct ed, ez, t3; cbn; try discriminate; reflexivity.
Qed.

(** A literal of the grammar within the length limit is read to its
    end by [_Py_dg_strtod]. *)
Lemma literal_dg_strtod (s : list ascii) :
  Zlength s <= PyFloat.MAX_DIGITS ->
  Grammar.decimal_literal s = true ->
  exists x, PyFloat.dg_strtod s = Some (x, []).
Proof.
  intros Hlen. unfold PyFloat.dg_strtod, Grammar.decimal_literal.
  pose proof (parse_sign_length s) as Hsign.
  destruct (PyFloat.parse_sign s) as [sign s0]. cbn [snd] in *.
  destruct (span is_zero_digit s0) as [zs s1] eqn:Ez.
  destruct (span isdigit s1) as [ds s2] eqn:Ed.
  pose proof (span_zeros_then_digits _ _ _ _ _ Ez Ed) as Eall.
  rewrite Eall. apply span_app in Eall.
  destruct (PyFloat.parse_fraction (is_nil ds) s2) as [[fz fd] s3] eqn:Ef.
  rewrite (fraction_digits _ _ _ _ _ Ef).
  pose proof (fraction_length _ _ _ _ _ Ef) as Hfrac.
  intros H. apply andb_prop in H as [Hdigits Hexp].
  apply exponent_part_read in Hexp.
  destruct (PyFloat.parse_exponent s3) as [e s4]. cbn [snd] in Hexp. subst s4.
  assert (Hnd : (Zlength (ds ++ fd) =? 0)
                && negb (negb (is_nil zs) || negb (is_nil fz)) = false).
  { destruct (Z.eqb_spec (Zlength (ds ++ fd)) 0) as [E0|]; [|reflexivity].
    apply Zlength_nil_inv, app_eq_nil in E0 as [-> ->].
    rewrite !app_nil_r in Hdigits.
    destruct zs, fz; try discriminate Hdigits; reflexivity. }
  rewrite Hnd.
  assert (Hmax : (PyFloat.MAX_DIGITS <? Zlength (ds ++ fd))
                 || (PyFloat.MAX_DIGITS <? Zlength fz + Zlength fd) = false).
  { rewrite Eall, !Zlength_app in Hsign. rewrite Zlength_app.
    pose proof (Zlength_nonneg zs). pose proof (Zlength_nonneg ds).
    pose proof (Zlength_nonneg fz). pose proof (Zlength_nonneg fd).
    pose proof (Zlength_nonneg s3).
    apply orb_false_intro; apply Z.ltb_ge; lia. }
  rewrite Hmax. eexists. reflexivity.
Qed.

Lemma chars_eqb_eq (s t : list ascii) : Grammar.chars_eqb s t = true -> s = t.
Proof.
  revert t. induction s as [|c s IH]; intros [|d t] H; try discriminate; [reflexivity|].
  cbn in H. apply andb_prop in H as [Hc Hs].
  apply Ascii.eqb_eq in Hc. now rewrite Hc, (IH _ Hs).
Qed.

Lemma case_insensitive_match_complete (t p r : list ascii) :
  map Py_TOLOWER p = t -> PyFloat.case_insensitive_match (p ++ r) t = Some r.
Proof.
  revert p. induction t as [|ct t IH]; intros [|cp p] H; try discriminate.
  - now destruct r.
  - cbn in H. injection H as Hc Hp.
    cbn [app PyFloat.case_insensitive_match]. rewrite Hc, Ascii.eqb_refl. now apply IH.
Qed.

(** A letter that starts one of the special words is no digit and no
    decimal point. *)
Lemma word_start_not_numeric (c : ascii) :
  Py_TOLOWER c = "i"%char \/ Py_TOLOWER c = "n"%char ->
  isdigit c = false /\ Ascii.eqb c "." = false.
Proof.
  destruct c as [[] [] [] [] [] [] [] []]; vm_compute;
    intros [H|H]; first [discriminate H | split; reflexivity].
Qed.

Lemma not_numeric_dg_strtod (sign : bool) (s : list ascii) (c : ascii) (t : list ascii) :
  PyFloat.parse_sign s = (sign, c :: t) ->
  isdigit c = false -> Ascii.eqb c "." = false ->
  PyFloat.dg_strtod s = None.
Proof.
  intros Hs Hd Hp. unfold PyFloat.dg_strtod. rewrite Hs.
  assert (Hz : is_zero_digit c = false).
  { destruct (is_zero_digit c) eqn:E; [|reflexivity].
    apply zero_digit_is_digit in E. congruence. }
  cbn [span]. rewrite Hz. cbn [span]. rewrite Hd.
  unfold PyFloat.parse_fraction. cbn [after_point]. rewrite Hp. reflexivity.
Qed.

(** A special word is left alone by [_Py_dg_strtod] and read to its end
    by [_Py_parse_inf_or_nan]. *)
Lemma special_word_parsed (s : list ascii) :
  Grammar.special_word s = true ->
  PyFloat.dg_strtod s = None /\ exists x, PyFloat.parse_inf_or_nan s = Some (x, []).
Proof.
  unfold Grammar.special_word, PyFloat.parse_inf_or_nan.
  destruct (PyFloat.parse_sign s) as [negate s0] eqn:Es. cbn [snd].
  intros H. apply orb_prop in H as [H|H]; [apply orb_prop in H as [H|H]|];
    apply chars_eqb_eq in H.
  - destruct s0 as [|c t]; [discriminate|].
    assert (Hc : Py_TOLOWER c = "i"%char) by (cbn in H; congruence).
    destruct (word_start_not_numeric c (or_introl Hc)) as [Hd Hp].
    split; [exact (not_numeric_dg_strtod _ _ _ _ Es Hd Hp)|].
    rewrite <- (app_nil_r (c :: t)).
    rewrite (case_insensitive_match_complete PyFloat.word_inf (c :: t) [] H).
    eexists. reflexivity.
  - destruct s0 as [|c t]; [discriminate|].
    assert (Hc : Py_TOLOWER c = "i"%char) by (cbn in H; congruence).
    destruct (word_start_not_numeric c (or_introl Hc)) as [Hd Hp].
    split; [exact (not_numeric_dg_strtod _ _ _ _ Es Hd Hp)|].
    change (list_ascii_of_string "infinity")
      with (PyFloat.word_inf ++ PyFloat.word_inity) in H.
    apply map_eq_app in H as (p & q & -> & Hp' & Hq).
    rewrite (case_insensitive_match_complete PyFloat.word_inf p q Hp').
    rewrite <- (app_nil_r q).
    rewrite (case_insensitive_match_complete PyFloat.word_inity q [] Hq).
    eexists. reflexivity.
  - destruct s0 as [|c t]; [discriminate|].
    assert (Hc : Py_TOLOWER c = "n"%char) by (cbn in H; congruence).
    destruct (word_start_not_numeric c (or_intror Hc)) as [Hd Hp].
    split; [exact (not_numeric_dg_strtod _ _ _ _ Es Hd Hp)|].
    assert (Hinf : PyFloat.case_insensitive_match (c :: t) PyFloat.word_inf = None).
    { cbn. rewrite Hc. reflexivity. }
    rewrite Hinf. rewrite <- (app_nil_r (c :: t)).
    rewrite (case_insensitive_match_complete PyFloat.word_nan (c :: t) [] H).
    eexists. reflexivity.
Qed.

Lemma dropwhile_length (p : ascii -> bool) (s : list ascii) :
  Zlength (dropwhile p s) <= Zlength s.
Proof.
  induction s as [|c s IH]; [cbn; lia|].
  cbn [dropwhile]. rewrite Zlength_cons. destruct (p c); [lia|].
  rewrite Zlength_cons. lia.
Qed.

Lemma rev_Zlength {A : Type} (l : list A) : Zlength (rev l) = Zlength l.
Proof. now rewrite !Zlength_correct, length_rev. Qed.

Lemma utf8_decode_length_upto (n : nat) :
  forall s, (List.length s <= n)%nat -> Zlength (utf8_decode s) <= Zlength s.
Proof.
  induction n as [|n IH]; intros s Hn.
  - destruct s; [cbn; lia|cbn in Hn; lia].
  - destruct s as [|b0 t]; [cbn; lia|]. cbn [List.length] in Hn.
    assert (Hesc : Zlength (surrogate_escape (ord b0) :: utf8_decode t)
                   <= Zlength (b0 :: t))
      by (rewrite !Zlength_cons; specialize (IH t); lia).
    assert (Hone : Zlength (ord b0 :: utf8_decode t) <= Zlength (b0 :: t))
      by (rewrite !Zlength_cons; specialize (IH t); lia).
    cbn [utf8_decode]. cbv zeta.
    set (esc := surrogate_escape (ord b0) :: utf8_decode t) in *.
    set (one := ord b0 :: utf8_decode t) in *.
    clearbody esc one.
    destruct (ord b0 <? 128); [exact Hone|].
    destruct ((194 <=? ord b0) && (ord b0 <=? 223)).
    { destruct t as [|b1 t1]; [exact Hesc|].
      destruct (is_continuation (ord b1)); [|exact Hesc].
      cbn [List.length] in Hn. rewrite !Zlength_cons. specialize (IH t1). lia. }
    destruct ((224 <=? ord b0) && (ord b0 <=? 239)).
    { destruct t as [|b1 [|b2 t2]]; try exact Hesc.
      destruct (second_ok (ord b0) (ord b1) && is_continuation (ord b2));
        [|exact Hesc].
      cbn [List.length] in Hn. rewrite !Zlength_cons. specialize (IH t2). lia. }
    destruct ((240 <=? ord b0) && (ord b0 <=? 244)); [|exact Hesc].
    destruct t as [|b1 [|b2 [|b3 t3]]]; try exact Hesc.
    destruct (second_ok (ord b0) (ord b1) && is_continuation (ord b2)
              && is_continuation (ord b3)); [|exact Hesc].
    cbn [List.length] in Hn. rewrite !Zlength_cons. specialize (IH t3). lia.
Qed.

Lemma utf8_decode_length (s : list ascii) : Zlength (utf8_decode s) <= Zlength s.
Proof. apply (utf8_decode_length_upto (List.length s)). lia. Qed.

Lemma transform_loop_length (u : list Z) :
  Zlength (PyFloat.transform_loop u) <= Zlength u.
Proof.
  induction u as [|c u IH]; [cbn; lia|].
  cbn [PyFloat.transform_loop]. pose proof (Zlength_nonneg u).
  destruct (c <? 127); [rewrite !Zlength_cons; lia|].
  destruct (Py_UNICODE_ISSPACE c); [rewrite !Zlength_cons; lia|].
  destruct (Py_UNICODE_TODECIMAL c); rewrite !Zlength_cons; [lia|].
  rewrite Zlength_nil. lia.
Qed.

Lemma remove_underscores_length (s : list ascii) :
  forall prev u, PyFloat.remove_underscores prev s = Some u -> Zlength u <= Zlength s.
Proof.
  induction s as [|c s IH]; intros prev u H; cbn [PyFloat.remove_underscores] in H.
  - destruct (Ascii.eqb prev "_"); [discriminate|]. injection H as <-. lia.
  - rewrite Zlength_cons. destruct (Ascii.eqb c "_").
    + destruct (isdigit prev); [|discriminate]. specialize (IH _ _ H). lia.
    + destruct (Ascii.eqb prev "_" && negb (isdigit c)); [discriminate|].
      destruct (PyFloat.remove_underscores c s) as [u'|] eqn:E; [|discriminate].
      injection H as <-. rewrite Zlength_cons. specialize (IH _ _ E). lia.
Qed.

Lemma stripped_length (v : string) :
  Zlength (Grammar.stripped v) <= Z.of_nat (String.length v).
Proof.
  unfold Grammar.stripped, PyFloat.transform_decimal_and_space, code_points.
  set (l := list_ascii_of_string v).
  assert (Hl : Zlength l = Z.of_nat (String.length v)).
  { subst l. rewrite Zlength_correct. f_equal.
    induction v as [|c v IH]; cbn; [reflexivity|]. now rewrite IH. }
  rewrite <- Hl, rev_Zlength.
  etransitivity; [apply dropwhile_length|]. rewrite rev_Zlength.
  etransitivity; [apply dropwhile_length|].
  etransitivity; [|apply utf8_decode_length].
  destruct (forallb _ (utf8_decode l)); [|apply transform_loop_length].
  rewrite !Zlength_correct, length_map. lia.
Qed.

(** The wider grammar is exact: a text in it, of at most [MAX_DIGITS]
    characters, is converted by [float]. *)
Lemma accepted_is_converted (v : string) :
  Z.of_nat (String.length v) <= PyFloat.MAX_DIGITS ->
  Grammar.accepted v = true ->
  exists x, PyFloat.PyFloat_FromString v = Some x.
Proof.
  intros Hlen. pose proof (stripped_length v) as Hstrip.
  unfold Grammar.accepted, PyFloat.PyFloat_FromString.
  change (rev (dropwhile Py_ISSPACE (rev (dropwhile Py_ISSPACE
            (PyFloat.transform_decimal_and_space (code_points v))))))
    with (Grammar.stripped v).
  destruct (PyFloat.remove_underscores zero (Grammar.stripped v)) as [u|] eqn:Eu;
    [|discriminate].
  intros Hacc.
  assert (Hinner : exists x, PyFloat.float_from_string_inner u = Some x).
  { pose proof (remove_underscores_length _ _ _ Eu) as Hu.
    unfold PyFloat.float_from_string_inner, PyFloat.ascii_strtod.
    destruct (Grammar.decimal_literal u) eqn:Elit.
    - destruct (literal_dg_strtod u ltac:(lia) Elit) as (x & ->). now exists x.
    - cbn [orb] in Hacc. destruct (special_word_parsed u Hacc) as (-> & x & ->).
      now exists x. }
  destruct (is_nil _) eqn:Enil.
  - exfalso. unfold Grammar.stripped in Eu.
    destruct (dropwhile Py_ISSPACE
                (PyFloat.transform_decimal_and_space (code_points v)));
      [|discriminate Enil].
    cbn in Eu. injection Eu as <-. vm_compute in Hacc. discriminate Hacc.
  - unfold PyFloat.string_to_number_with_underscores.
    destruct (existsb _ _) eqn:E.
    + rewrite Eu. exact Hinner.
    + rewrite (remove_underscores_none _ zero eq_refl E) in Eu.
      injection Eu as ->. exact Hinner.
Qed.

(** * Further properties of the script *)

(** ** Helpers *)

Lemma has_field_safe (r : row) : has_field r = true <-> safe_length r.
Proof.
  split; [|apply has_field_length].
  unfold has_field, effect_of, safe_length.
  destruct (Nat.ltb_spec 1 (List.length r)); [|lia].
  destruct (nth_error r 8) eqn:E; [|discriminate].
  intros _. right.
  assert (8 < List.length r)%nat by (apply nth_error_Some; congruence). lia.
Qed.

Lemma forallb_has_field_safe (rs : list row) :
  forallb has_field rs = true <-> Forall safe_length rs.
Proof.
  rewrite forallb_forall, Forall_forall.
  split; intros H r Hin; apply has_field_safe, H, Hin.
Qed.

(** Two disks on which the function does the same give the same run. *)
Lemma run_same_sum (fs1 fs2 : filesystem) (argv : list string) :
  (forall path st, nth_error argv 1 = Some path ->
                   sum_second_column fs1 path st = sum_second_column fs2 path st) ->
  run fs1 argv = run fs2 argv.
Proof.
  intros H. destruct (nth_error argv 1) as [path|] eqn:Hargv.
  - now rewrite !(run_with_path _ _ _ Hargv), (H path initial_state eq_refl).
  - unfold run, script, bind, getitem. now rewrite Hargv.
Qed.

Lemma sum_same_loop (fs1 fs2 : filesystem) (path : string) (rd1 rd2 : reader) :
  fs1 path = Opened rd1 ->
  fs2 path = Opened rd2 ->
  failure rd1 = failure rd2 ->
  (forall st, for_rows (rows rd1) st = for_rows (rows rd2) st) ->
  forall st, sum_second_column fs1 path st = sum_second_column fs2 path st.
Proof.
  intros H1 H2 Hfail Hloop st.
  unfold sum_second_column, bind, store_total, try_except.
  rewrite H1, H2. unfold for_reader, bind. now rewrite Hloop, Hfail.
Qed.

Lemma add_nan (x : Float64.float) : Float64.add x Float64.nan = Float64.nan.
Proof. destruct x; reflexivity. Qed.

Lemma sum_from_nan (rs : list row) :
  sum_from (PyFloat Float64.nan) rs = PyFloat Float64.nan.
Proof.
  induction rs as [|r rs IH]; [reflexivity|].
  unfold sum_from in *. cbn [fold_left].
  destruct (effect_of r); exact IH.
Qed.

Lemma sum_from_app (t : number) (a b : list row) :
  sum_from t (a ++ b) = sum_from (sum_from t a) b.
Proof. unfold sum_from. apply fold_left_app. Qed.

Lemma sum_from_not_counted (t : number) (rs : list row) :
  existsb counted rs = false -> sum_from t rs = t.
Proof.
  revert t. induction rs as [|r rs IH]; intros t H; [reflexivity|].
  cbn [existsb] in H. apply orb_false_elim in H as [Hr Hrs].
  unfold sum_from in *. cbn [fold_left]. unfold counted in Hr.
  destruct (effect_of r); try discriminate; now apply IH.
Qed.

Lemma sum_from_float (x : Float64.float) (rs : list row) :
  exists y, sum_from (PyFloat x) rs = PyFloat y.
Proof.
  revert x. induction rs as [|r rs IH]; intros x; [now exists x|].
  unfold sum_from in *. cbn [fold_left].
  destruct (effect_of r); apply IH.
Qed.

Lemma sum_from_counted (t : number) (rs : list row) :
  existsb counted rs = true -> exists y, sum_from t rs = PyFloat y.
Proof.
  revert t. induction rs as [|r rs IH]; intros t H; [discriminate|].
  cbn [existsb] in H. unfold sum_from in *. cbn [fold_left].
  unfold counted in H at 1.
  destruct (effect_of r); cbn [orb] in H;
    first [now apply IH | unfold number_add; apply sum_from_float].
Qed.

Lemma diagnostics_map (rs : list row) :
  exists raws, diagnostics rs = map skip_line raws.
Proof.
  induction rs as [|r rs (raws & IH)]; [now exists []|].
  unfold diagnostics in *. cbn [flat_map].
  destruct (effect_of r); cbn [app]; try (now exists raws).
  exists (raw :: raws). cbn [map]. now rewrite IH.
Qed.

Lemma loop_body_view (r r' : row) (st : state) :
  row_view r = row_view r' -> loop_body r st = loop_body r' st.
Proof.
  unfold row_view, more_than_one_field. intros H.
  pose proof (f_equal fst H) as Hguard. pose proof (f_equal snd H) as Hfield.
  cbn [fst snd] in Hguard, Hfield.
  unfold loop_body. rewrite Hguard.
  destruct (1 <? List.length r')%nat; [|reflexivity].
  unfold try_except, bind, getitem. now rewrite Hfield.
Qed.

Lemma for_rows_view (rs rs' : list row) :
  map row_view rs = map row_view rs' ->
  forall st, for_rows rs st = for_rows rs' st.
Proof.
  revert rs'. induction rs as [|r rs IH]; intros [|r' rs'] H st; try discriminate.
  - reflexivity.
  - cbn [map] in H.
    assert (Hr : row_view r = row_view r') by congruence.
    assert (Hrs : map row_view rs = map row_view rs') by congruence.
    cbn [for_rows]. unfold bind. rewrite (loop_body_view _ _ _ Hr).
    destruct (loop_body r' st) as [[[]|e] st1]; [apply (IH _ Hrs)|reflexivity].
Qed.

Lemma for_rows_without_short (rs : list row) (st : state) :
  for_rows (filter more_than_one_field rs) st = for_rows rs st.
Proof.
  revert st. induction rs as [|r rs IH]; intros st; [reflexivity|].
  cbn [filter for_rows]. destruct (more_than_one_field r) eqn:E.
  - cbn [for_rows]. unfold bind.
    destruct (loop_body r st) as [[[]|e] st1]; [apply IH|reflexivity].
  - unfold bind, loop_body. unfold more_than_one_field in E. rewrite E.
    unfold ret at 1. apply IH.
Qed.

(** ** The properties *)

(** X1: the first row of two to eight fields ends the whole program with
    IndexError.  Only the diagnostics of the rows before it were
    printed; the sum of those rows is lost, no total is printed, and
    the rows after it (and whether the file could be read to its end)
    play no part. *)
Theorem X1_short_row_ends_run
        (fs : filesystem) (argv : list string) (path : string) (rd : reader)
        (pre : list row) (r : row) (post : list row) :
  nth_error argv 1 = Some path ->
  fs path = Opened rd ->
  rows rd = pre ++ r :: post ->
  Forall safe_length pre ->
  (2 <= List.length r <= 8)%nat ->
  run fs argv = (Raised IndexError, diagnostics pre).
Proof.
  intros Hargv Hfs Hrows Hpre Hr.
  apply forallb_has_field_safe in Hpre.
  rewrite (run_with_path _ _ _ Hargv).
  now rewrite (sum_rows_stop _ _ _ _ _ _ _ Hfs Hrows Hpre (effect_no_field _ Hr)).
Qed.

Lemma X1_short_row_ends_run_witness :
  run Files.disk [Sample.prog; "text-then-pair.csv"%string]
  = (Raised IndexError, diagnostics [Sample.row_10_5; Sample.row_text]).
Proof.
  apply (X1_short_row_ends_run Files.disk
           [Sample.prog; "text-then-pair.csv"%string] "text-then-pair.csv"%string
           (mkReader [Sample.row_10_5; Sample.row_text; Sample.row_pair; Sample.row_4_5]
                     None)
           [Sample.row_10_5; Sample.row_text] Sample.row_pair [Sample.row_4_5]);
    try reflexivity.
  - repeat constructor; right; cbn; lia.
  - cbn. lia.
Defined.

(** X2: when the file is read to its end and every row has fewer than 2
    or at least 9 fields, the output is exactly one
    [Skipping invalid value] line per row whose field 8 does not
    convert, in file order, followed by the total line with the column
    sum. *)
Theorem X2_output_of_complete_run
        (fs : filesystem) (argv : list string) (path : string) (rd : reader) :
  nth_error argv 1 = Some path ->
  fs path = Opened rd ->
  failure rd = None ->
  Forall safe_length (rows rd) ->
  run fs argv =
  (Returned tt, diagnostics (rows rd) ++ [final_line (column_sum (rows rd))]).
Proof.
  intros Hargv Hfs Hfail Hrows. apply forallb_has_field_safe in Hrows.
  rewrite (run_with_path _ _ _ Hargv), (sum_rows_complete _ _ _ _ Hfs Hrows), Hfail.
  reflexivity.
Qed.

Lemma X2_output_of_complete_run_witness :
  run Files.disk [Sample.prog; "blanks.csv"%string] =
  (Returned tt,
   diagnostics Files.with_blanks ++ [final_line (column_sum Files.with_blanks)]).
Proof.
  apply (X2_output_of_complete_run Files.disk
           [Sample.prog; "blanks.csv"%string] "blanks.csv"%string
           (mkReader Files.with_blanks None)); try reflexivity.
  repeat constructor; first [left; cbn; lia | right; cbn; lia].
Defined.

(** X3: for a file that is read to its end, the program ends normally
    exactly when no row has two to eight fields, and otherwise it ends
    with IndexError: a field that does not convert never ends it. *)
Theorem X3_normal_end_iff_no_short_row
        (fs : filesystem) (argv : list string) (path : string) (rd : reader) :
  nth_error argv 1 = Some path ->
  fs path = Opened rd ->
  failure rd = None ->
  (fst (run fs argv) = Returned tt <-> Forall safe_length (rows rd)) /\
  (~ Forall safe_length (rows rd) -> fst (run fs argv) = Raised IndexError).
Proof.
  intros Hargv Hfs Hfail. rewrite (run_with_path _ _ _ Hargv).
  destruct (rows_split (rows rd)) as [Hall|(pre & r & post & Hrows & Hpre & Hr)].
  - rewrite (sum_rows_complete _ _ _ _ Hfs Hall), Hfail. cbn [fst].
    apply forallb_has_field_safe in Hall. split; [tauto|contradiction].
  - rewrite (sum_rows_stop _ _ _ _ _ _ _ Hfs Hrows Hpre Hr). cbn [fst].
    assert (Hnot : ~ Forall safe_length (rows rd)).
    { intros Hall. rewrite Hrows in Hall.
      apply Forall_app in Hall as [_ Hall]. inversion Hall as [|? ? Hsafe _]; subst.
      apply has_field_safe in Hsafe. unfold has_field in Hsafe.
      rewrite Hr in Hsafe. discriminate. }
    split; [split; [discriminate|contradiction]|reflexivity].
Qed.

Lemma X3_normal_end_iff_no_short_row_witness :
  (fst (run Files.disk [Sample.prog; "blanks.csv"%string]) = Returned tt <->
   Forall safe_length Files.with_blanks) /\
  (~ Forall safe_length Files.with_blanks ->
   fst (run Files.disk [Sample.prog; "blanks.csv"%string]) = Raised IndexError).
Proof.
  apply (X3_normal_end_iff_no_short_row Files.disk
           [Sample.prog; "blanks.csv"%string] "blanks.csv"%string
           (mkReader Files.with_blanks None)); reflexivity.
Defined.

(** X5: whatever [sum_second_column] does, returning or raising, it only
    appends to the output, and what it appends is some
    [Skipping invalid value] lines followed by at most one
    [File not found] line for its path. *)
Theorem X5_function_prints_diagnostics_only
        (fs : filesystem) (path : string) (st : state) :
  exists raws tail,
    stdout (snd (sum_second_column fs path st))
      = stdout st ++ map skip_line raws ++ tail /\
    (tail = [] \/ tail = [missing_line path]).
Proof.
  destruct (fs path) as [e|rd] eqn:Hfs.
  - rewrite (sum_open_raises _ _ _ _ Hfs). exists [].
    destruct (issubclass e FileNotFoundError); cbn [snd stdout map app].
    + exists [missing_line path]. split; [reflexivity|now right].
    + exists []. split; [now rewrite app_nil_r|now left].
  - destruct (rows_split (rows rd)) as [Hall|(pre & r & post & Hrows & Hpre & Hr)].
    + rewrite (sum_rows_complete _ _ _ _ Hfs Hall).
      destruct (diagnostics_map (rows rd)) as (raws & ->). exists raws.
      destruct (failure rd) as [e|];
        [destruct (issubclass e FileNotFoundError)|]; cbn [snd stdout].
      * exists [missing_line path]. split; [now rewrite <- app_assoc|now right].
      * exists []. split; [now rewrite app_nil_r|now left].
      * exists []. split; [now rewrite app_nil_r|now left].
    + rewrite (sum_rows_stop _ _ _ _ _ _ _ Hfs Hrows Hpre Hr). cbn [snd stdout].
      destruct (diagnostics_map pre) as (raws & ->). exists raws, [].
      split; [now rewrite app_nil_r|now left].
Qed.

(** X6: in a run that reads the whole file, the total is the integer
    [0], printed as [0], as long as no field 8 converted (an empty
    file, rows of one field, texts); once a field converted the total
    is a float and is printed as one. *)
Theorem X6_total_is_integer_until_counted
        (fs : filesystem) (argv : list string) (path : string) (rd : reader) :
  nth_error argv 1 = Some path ->
  fs path = Opened rd ->
  failure rd = None ->
  Forall safe_length (rows rd) ->
  (existsb counted (rows rd) = false ->
   run fs argv =
   (Returned tt, diagnostics (rows rd) ++ ["The sum of the second column is: 0"%string])) /\
  (existsb counted (rows rd) = true ->
   exists y, run fs argv =
             (Returned tt, diagnostics (rows rd) ++ [final_line (PyFloat y)])).
Proof.
  intros Hargv Hfs Hfail Hrows. apply forallb_has_field_safe in Hrows.
  rewrite (run_with_path _ _ _ Hargv), (sum_rows_complete _ _ _ _ Hfs Hrows), Hfail.
  cbn [stdout initial_state app]. unfold column_sum. split; intros H.
  - now rewrite (sum_from_not_counted _ _ H).
  - destruct (sum_from_counted (PyInt 0) _ H) as (y & ->). now exists y.
Qed.

Lemma X6_total_is_integer_until_counted_witness :
  (existsb counted [Sample.row_text] = false ->
   run Sample.disk [Sample.prog; "text.csv"%string] =
   (Returned tt,
    diagnostics [Sample.row_text] ++ ["The sum of the second column is: 0"%string])) /\
  (existsb counted [Sample.row_text] = true ->
   exists y, run Sample.disk [Sample.prog; "text.csv"%string] =
             (Returned tt, diagnostics [Sample.row_text] ++ [final_line (PyFloat y)])).
Proof.
  apply (X6_total_is_integer_until_counted Sample.disk
           [Sample.prog; "text.csv"%string] "text.csv"%string
           (mkReader [Sample.row_text] None)); try reflexivity.
  repeat constructor; right; cbn; lia.
Defined.

(** X7: rows of fewer than two fields can be taken out of a file without
    any change to the run: same end, same output, same total. *)
Theorem X7_rows_of_one_field_change_nothing
        (fs1 fs2 : filesystem) (argv : list string) (path : string) (rd : reader) :
  nth_error argv 1 = Some path ->
  fs1 path = Opened rd ->
  fs2 path = Opened (mkReader (filter more_than_one_field (rows rd)) (failure rd)) ->
  run fs1 argv = run fs2 argv.
Proof.
  intros Hargv H1 H2. rewrite !(run_with_path _ _ _ Hargv).
  rewrite (sum_same_loop fs2 fs1 path _ rd H2 H1 eq_refl
             (fun st => for_rows_without_short (rows rd) st)).
  reflexivity.
Qed.

Lemma X7_rows_of_one_field_change_nothing_witness :
  run Files.disk [Sample.prog; "blanks.csv"%string]
  = run Files.disk_no_blanks [Sample.prog; "blanks.csv"%string].
Proof.
  apply (X7_rows_of_one_field_change_nothing Files.disk Files.disk_no_blanks
           [Sample.prog; "blanks.csv"%string] "blanks.csv"%string
           (mkReader Files.with_blanks None)); reflexivity.
Defined.

(** X8: two files whose reading ends the same way (both at the end of
    the file, or both with the same exception) and whose rows agree,
    one by one, on whether the row has more than one field and on its
    field 8, give the same run: same end, same output, same total.  The
    loop looks at nothing else in a row, the second field included. *)
Theorem X8_same_views_same_run
        (fs1 fs2 : filesystem) (argv : list string) (path : string)
        (rd1 rd2 : reader) :
  nth_error argv 1 = Some path ->
  fs1 path = Opened rd1 ->
  fs2 path = Opened rd2 ->
  failure rd1 = failure rd2 ->
  map row_view (rows rd1) = map row_view (rows rd2) ->
  run fs1 argv = run fs2 argv.
Proof.
  intros Hargv H1 H2 Hfail Hview. rewrite !(run_with_path _ _ _ Hargv).
  rewrite (sum_same_loop fs1 fs2 path rd1 rd2 H1 H2 Hfail (for_rows_view _ _ Hview)).
  reflexivity.
Qed.

Lemma X8_same_views_same_run_witness :
  run Files.disk [Sample.prog; "other.csv"%string]
  = run Files.disk_other_fields [Sample.prog; "other.csv"%string].
Proof.
  apply (X8_same_views_same_run Files.disk Files.disk_other_fields
           [Sample.prog; "other.csv"%string] "other.csv"%string
           (mkReader [Files.row_other; Sample.row_single] None)
           (mkReader [Sample.row_10_5; []] None)); reflexivity.
Defined.

(** X9: one field 8 that converts to a NaN (the text [nan], say) makes
    the total of a completed run NaN, whatever the other rows hold: the
    last line is [The sum of the second column is: nan]. *)
Theorem X9_nan_field_makes_total_nan
        (fs : filesystem) (argv : list string) (path : string) (rd : reader)
        (r : row) (raw : string) :
  nth_error argv 1 = Some path ->
  fs path = Opened rd ->
  failure rd = None ->
  Forall safe_length (rows rd) ->
  In r (rows rd) ->
  nth_error r 8 = Some raw ->
  PyFloat.PyFloat_FromString raw = Some S754_nan ->
  run fs argv =
  (Returned tt, diagnostics (rows rd) ++ ["The sum of the second column is: nan"%string]).
Proof.
  intros Hargv Hfs Hfail Hrows Hin Hfield Hnan.
  apply forallb_has_field_safe in Hrows.
  rewrite (run_with_path _ _ _ Hargv), (sum_rows_complete _ _ _ _ Hfs Hrows), Hfail.
  cbn [stdout initial_state app].
  assert (Heff : effect_of r = Added S754_nan).
  { unfold effect_of.
    assert (8 < List.length r)%nat by (apply nth_error_Some; congruence).
    destruct (Nat.ltb_spec 1 (List.length r)); [|lia].
    now rewrite Hfield, Hnan. }
  assert (Hsum : column_sum (rows rd) = PyFloat Float64.nan).
  { apply in_split in Hin as (a & b & ->).
    unfold column_sum. rewrite sum_from_app.
    unfold sum_from at 1. cbn [fold_left]. rewrite Heff.
    unfold number_add. rewrite add_nan. apply sum_from_nan. }
  rewrite Hsum. reflexivity.
Qed.

Lemma X9_nan_field_makes_total_nan_witness :
  run Files.disk [Sample.prog; "nan.csv"%string] =
  (Returned tt,
   diagnostics [Sample.row_10_5; Files.row_nan; Sample.row_4_5]
     ++ ["The sum of the second column is: nan"%string]).
Proof.
  apply (X9_nan_field_makes_total_nan Files.disk
           [Sample.prog; "nan.csv"%string] "nan.csv"%string
           (mkReader [Sample.row_10_5; Files.row_nan; Sample.row_4_5] None)
           Files.row_nan "nan"); try reflexivity.
  - repeat constructor; right; cbn; lia.
  - right. left. reflexivity.
Defined.

(** X10: an exception raised while the rows are read, other than
    FileNotFoundError, ends the program with that exception after the
    diagnostics of the rows read so far and without a total; this holds
    for a ValueError too (UnicodeDecodeError is one), because the [for]
    statement stands outside the [try] of the row. *)
Theorem X10_read_error_ends_run
        (fs : filesystem) (argv : list string) (path : string) (rd : reader)
        (e : exc_class) :
  nth_error argv 1 = Some path ->
  fs path = Opened rd ->
  failure rd = Some e ->
  e <> FileNotFoundError ->
  Forall safe_length (rows rd) ->
  run fs argv = (Raised e, diagnostics (rows rd)).
Proof.
  intros Hargv Hfs Hfail Hne Hrows. apply forallb_has_field_safe in Hrows.
  rewrite (run_with_path _ _ _ Hargv), (sum_rows_complete _ _ _ _ Hfs Hrows), Hfail.
  destruct (issubclass e FileNotFoundError) eqn:E; [|reflexivity].
  apply only_FileNotFoundError in E. contradiction.
Qed.

Lemma X10_read_error_ends_run_witness :
  run Files.disk [Sample.prog; "broken.csv"%string]
  = (Raised UnicodeDecodeError, diagnostics [Sample.row_text; Sample.row_10_5]).
Proof.
  apply (X10_read_error_ends_run Files.disk
           [Sample.prog; "broken.csv"%string] "broken.csv"%string
           (mkReader [Sample.row_text; Sample.row_10_5] (Some UnicodeDecodeError))
           UnicodeDecodeError); try reflexivity.
  - discriminate.
  - repeat constructor; right; cbn; lia.
Defined.

(** ** The lines of the output text *)

Lemma list_ascii_of_append (a b : string) :
  list_ascii_of_string (a ++ b)%string = list_ascii_of_string a ++ list_ascii_of_string b.
Proof. induction a as [|c a IH]; cbn; [reflexivity|now rewrite IH]. Qed.

Lemma text_lines_one_line (a t : list ascii) :
  one_line a = true -> text_lines (a ++ LF :: t) = a :: text_lines t.
Proof.
  induction a as [|c a IH]; intros H; [reflexivity|].
  cbn [one_line forallb] in H. apply andb_prop in H as [Hc Ha].
  cbn [app text_lines]. apply negb_true_iff in Hc. rewrite Hc.
  now rewrite (IH Ha).
Qed.

Lemma text_lines_terminated (a : list ascii) :
  exists l ls, text_lines (a ++ [LF]) = l :: ls.
Proof.
  induction a as [|c a (l & ls & IH)]; [now exists [], []|].
  cbn [app text_lines]. destruct (Ascii.eqb c LF); [now eexists; eexists|].
  rewrite IH. now exists (c :: l), ls.
Qed.

Lemma text_lines_after_line_feed (a t : list ascii) :
  text_lines (a ++ LF :: t) = text_lines (a ++ [LF]) ++ text_lines t.
Proof.
  induction a as [|c a IH]; [reflexivity|].
  cbn [app text_lines]. rewrite IH.
  destruct (Ascii.eqb c LF); [reflexivity|].
  destruct (text_lines_terminated a) as (l & ls & ->). reflexivity.
Qed.

Lemma text_lines_written (calls : list string) (s : list ascii) :
  text_lines (written calls ++ s) = text_lines (written calls) ++ text_lines s.
Proof.
  induction calls as [|c calls IH]; [reflexivity|].
  unfold written in *. cbn [flat_map]. rewrite <- !app_assoc. cbn [app].
  rewrite (text_lines_after_line_feed (list_ascii_of_string c) (_ ++ s)), IH.
  rewrite (text_lines_after_line_feed (list_ascii_of_string c) (flat_map _ calls)).
  now rewrite app_assoc.
Qed.

Lemma text_lines_starts (p x l : list ascii) (ls : list (list ascii)) :
  one_line p = true ->
  text_lines x = l :: ls ->
  text_lines (p ++ x) = (p ++ l) :: ls.
Proof.
  intros Hp Hx. induction p as [|c p IH]; [exact Hx|].
  cbn [one_line forallb] in Hp. apply andb_prop in Hp as [Hc Hp].
  cbn [app text_lines]. apply negb_true_iff in Hc. now rewrite Hc, (IH Hp).
Qed.

Lemma starts_with_app (p l : list ascii) : starts_with p (p ++ l) = true.
Proof. induction p as [|c p IH]; cbn; [reflexivity|]. now rewrite Ascii.eqb_refl. Qed.

(** After a total has been printed, the output text has a total line. *)
Lemma total_line_written (calls : list string) (v : number) :
  existsb is_total_line (text_lines (written (calls ++ [final_line v]))) = true.
Proof.
  unfold written. rewrite flat_map_app. cbn [flat_map]. rewrite app_nil_r.
  fold (written calls). rewrite text_lines_written, existsb_app.
  unfold final_line. rewrite list_ascii_of_append, <- app_assoc.
  fold total_phrase.
  destruct (text_lines_terminated (list_ascii_of_string (str v))) as (l & ls & Hl).
  rewrite (text_lines_starts total_phrase _ l ls eq_refl Hl).
  cbn [existsb]. unfold is_total_line at 2. rewrite starts_with_app.
  now rewrite orb_true_r.
Qed.

(** Diagnostics of rows whose field 8 holds no line feed are one line
    each, and none of them is a total line. *)
Lemma no_total_line_in_diagnostics (rs : list row) :
  forallb field_8_one_line rs = true ->
  existsb is_total_line (text_lines (written (diagnostics rs))) = false.
Proof.
  induction rs as [|r rs IH]; intros H; [reflexivity|].
  cbn [forallb] in H. apply andb_prop in H as [Hr Hrs].
  unfold diagnostics in *. cbn [flat_map].
  destruct (effect_of r) eqn:E; cbn [app]; try now apply IH.
  assert (Hraw : one_line (list_ascii_of_string raw) = true).
  { unfold effect_of in E. destruct (1 <? List.length r)%nat; [|discriminate].
    unfold field_8_one_line in Hr.
    destruct (nth_error r 8) as [field|]; [|discriminate].
    destruct (PyFloat.PyFloat_FromString field); [discriminate|].
    now injection E as <-. }
  unfold written in *. cbn [flat_map]. rewrite <- app_assoc. cbn [app].
  rewrite text_lines_one_line.
  - cbn [existsb]. rewrite (IH Hrs), orb_false_r.
    unfold skip_line. rewrite list_ascii_of_append. reflexivity.
  - unfold skip_line. rewrite list_ascii_of_append.
    unfold one_line in *. rewrite forallb_app, Hraw. reflexivity.
Qed.

Lemma forallb_app_left {A : Type} (f : A -> bool) (a b : list A) :
  forallb f (a ++ b) = true -> forallb f a = true.
Proof. rewrite forallb_app. intros H. now apply andb_prop in H. Qed.

(** X4: when no field 8 of the file holds a line feed, the text written
    to standard output has a line that starts with
    [The sum of the second column is: ] exactly when the program ended
    normally: a run that ends with an exception shows no total. *)
Theorem X4_total_line_iff_normal_end (fs : filesystem) (argv : list string) :
  (forall path rd,
      nth_error argv 1 = Some path -> fs path = Opened rd ->
      forallb field_8_one_line (rows rd) = true) ->
  existsb is_total_line (text_lines (written (snd (run fs argv)))) = true
  <-> fst (run fs argv) = Returned tt.
Proof.
  intros Hone. destruct (nth_error argv 1) as [path|] eqn:Hargv.
  - rewrite (run_with_path _ _ _ Hargv).
    destruct (fs path) as [e|rd] eqn:Hfs.
    + rewrite (sum_open_raises _ _ _ _ Hfs).
      destruct (issubclass e FileNotFoundError); cbn [fst snd stdout initial_state].
      * rewrite total_line_written. tauto.
      * cbn. split; discriminate.
    + specialize (Hone path rd eq_refl Hfs).
      destruct (rows_split (rows rd)) as [Hall|(pre & r & post & Hrows & Hpre & Hr)].
      * rewrite (sum_rows_complete _ _ _ _ Hfs Hall).
        destruct (failure rd) as [e|];
          [destruct (issubclass e FileNotFoundError)|];
          cbn [fst snd stdout initial_state app];
          try (rewrite total_line_written; tauto).
        rewrite (no_total_line_in_diagnostics _ Hone). split; discriminate.
      * rewrite (sum_rows_stop _ _ _ _ _ _ _ Hfs Hrows Hpre Hr).
        cbn [fst snd stdout initial_state app].
        rewrite Hrows in Hone. apply forallb_app_left in Hone.
        rewrite (no_total_line_in_diagnostics _ Hone). split; discriminate.
  - unfold run, script, bind, getitem. rewrite Hargv. cbn.
    split; discriminate.
Qed.

Lemma X4_total_line_iff_normal_end_witness :
  existsb is_total_line
    (text_lines (written (snd (run Files.disk
                                 [Sample.prog; "text-then-pair.csv"%string])))) = true
  <-> fst (run Files.disk [Sample.prog; "text-then-pair.csv"%string]) = Returned tt.
Proof.
  apply (X4_total_line_iff_normal_end Files.disk
           [Sample.prog; "text-then-pair.csv"%string]).
  intros path rd Hpath Hfs. injection Hpath as <-.
  vm_compute in Hfs. injection Hfs as <-. reflexivity.
Defined.

(** ** The script over a console *)

Lemma print_on_cases (con : console) (text : string) (st : state) :
  (con text = None /\
   print_on con text st = (Returned tt, mkState (total st) (stdout st ++ [text]))) \/
  (exists e, con text = Some e /\ print_on con text st = (Raised e, st)).
Proof.
  unfold print_on. destruct (con text) as [e|]; [right; now exists e|now left].
Qed.

(** On the standard output that takes every text the two scripts are
    the same. *)
Lemma for_rows_on_reliable (rs : list row) (st : state) :
  for_rows_on reliable rs st = for_rows rs st.
Proof.
  revert st. induction rs as [|r rs IH]; intros st; [reflexivity|].
  cbn [for_rows_on for_rows]. unfold bind.
  change (loop_body_on reliable r st) with (loop_body r st).
  destruct (loop_body r st) as [[[]|e] st1]; [apply IH|reflexivity].
Qed.

Lemma run_on_reliable (fs : filesystem) (argv : list string) :
  run_on reliable fs argv = run fs argv.
Proof.
  unfold run_on, run, script_on, script, bind.
  destruct (getitem argv 1 initial_state) as [[path|e] st0]; [|reflexivity].
  assert (Hsum : sum_second_column_on reliable fs path st0
                 = sum_second_column fs path st0).
  { unfold sum_second_column_on, sum_second_column, bind, try_except.
    destruct (store_total (PyInt 0) st0) as [[[]|e] st1]; [|reflexivity].
    destruct (fs path) as [e|rd]; [reflexivity|].
    unfold for_reader_on, for_reader, bind. now rewrite for_rows_on_reliable. }
  rewrite Hsum. reflexivity.
Qed.

(** One row over a console: [total] stays bound, and the row either
    ends normally, or with IndexError, or with what the console
    raised. *)
Lemma loop_body_on_ends (con : console) (r : row) (t : number) (out : list string) :
  exists o t' out',
    loop_body_on con r (mkState (Some t) out) = (o, mkState (Some t') out') /\
    (o = Returned tt \/ o = Raised IndexError \/
     exists e, o = Raised e /\ from_console con e).
Proof.
  unfold loop_body_on.
  destruct (1 <? List.length r)%nat;
    [|exists (Returned tt), t, out; split; [reflexivity|now left]].
  unfold try_except, bind, load_total, getitem, float; cbn [total stdout].
  destruct (nth_error r 8) as [field|];
    [|exists (Raised IndexError), t, out; split; [reflexivity|right; now left]].
  unfold ret at 1.
  destruct (PyFloat.PyFloat_FromString field) as [x|].
  - exists (Returned tt), (number_add t x), out. split; [reflexivity|now left].
  - unfold raise. change (issubclass ValueError ValueError) with true.
    unfold ret at 1.
    destruct (print_on_cases con ("Skipping invalid value: " ++ field)%string
                (mkState (Some t) out)) as [[_ ->]|(e & He & ->)].
    + eexists (Returned tt), t, _. split; [reflexivity|now left].
    + exists (Raised e), t, out. split; [reflexivity|].
      right. right. exists e. split; [reflexivity|]. eexists. exact He.
Qed.

Lemma for_rows_on_ends (con : console) (rs : list row) :
  forall (t : number) (out : list string),
  exists o t' out',
    for_rows_on con rs (mkState (Some t) out) = (o, mkState (Some t') out') /\
    (o = Returned tt \/ o = Raised IndexError \/
     exists e, o = Raised e /\ from_console con e).
Proof.
  induction rs as [|r rs IH]; intros t out.
  - exists (Returned tt), t, out. split; [reflexivity|now left].
  - cbn [for_rows_on]. unfold bind.
    destruct (loop_body_on_ends con r t out) as (o & t1 & out1 & -> & Ho).
    destruct Ho as [->|[->|(e & -> & He)]].
    + apply IH.
    + exists (Raised IndexError), t1, out1. split; [reflexivity|right; now left].
    + exists (Raised e), t1, out1. split; [reflexivity|].
      right. right. now exists e.
Qed.

(** The handler of the missing file, followed by [return total], over
    a console: it returns, or ends with what the console raised. *)
Lemma missing_file_handler_ends (con : console) (path : string)
      (t : number) (out : list string) (e : exc_class) (st' : state) :
  match print_on con (missing_line path) (mkState (Some t) out) with
  | (Returned _, st1) => load_total st1
  | (Raised e1, st1) => (Raised e1, st1)
  end = (Raised e, st') ->
  from_console con e.
Proof.
  destruct (print_on_cases con (missing_line path) (mkState (Some t) out))
    as [[_ ->]|(e1 & He1 & ->)].
  - cbn. discriminate.
  - intros H. injection H as <- _. now exists (missing_line path).
Qed.

Lemma sum_on_ends (con : console) (fs : filesystem) (path : string)
      (st st' : state) (e : exc_class) :
  sum_second_column_on con fs path st = (Raised e, st') ->
  e = IndexError \/
  (fs path = OpenRaises e \/ exists rd, fs path = Opened rd /\ failure rd = Some e) \/
  from_console con e.
Proof.
  unfold sum_second_column_on, bind, store_total, try_except.
  fold (missing_line path).
  destruct (fs path) as [e0|rd] eqn:Hfs.
  - unfold raise. destruct (issubclass e0 FileNotFoundError).
    + intros H. right. right. exact (missing_file_handler_ends _ _ _ _ _ _ H).
    + intros H. injection H as <- _. right. left. now left.
  - unfold for_reader_on, bind.
    destruct (for_rows_on_ends con (rows rd) (PyInt 0) (stdout st))
      as (o & t1 & out1 & -> & Ho).
    destruct Ho as [->|[->|(e1 & -> & He1)]].
    + destruct (failure rd) as [e0|] eqn:Hfail.
      * unfold raise. destruct (issubclass e0 FileNotFoundError).
        -- intros H. right. right. exact (missing_file_handler_ends _ _ _ _ _ _ H).
        -- intros H. injection H as <- _. right. left. right. now exists rd.
      * cbn. discriminate.
    + change (issubclass IndexError FileNotFoundError) with false.
      intros H. injection H as <- _. now left.
    + destruct (issubclass e1 FileNotFoundError).
      * intros H. right. right. exact (missing_file_handler_ends _ _ _ _ _ _ H).
      * intros H. injection H as <- _. right. now right.
Qed.

(** X11: over a standard output that may refuse a text, the only
    exceptions that can end the program are IndexError (no argument, or
    a row of two to eight fields), what [open] or the reading of the
    rows raised, and what [print] raised.  The ValueError of a failed
    conversion is always caught, and [total] is never read before it
    is bound. *)
Theorem X11_exceptions_that_end_the_program
        (con : console) (fs : filesystem) (argv : list string) (e : exc_class) :
  fst (run_on con fs argv) = Raised e ->
  e = IndexError \/
  (exists path,
      nth_error argv 1 = Some path /\
      (fs path = OpenRaises e \/ exists rd, fs path = Opened rd /\ failure rd = Some e)) \/
  from_console con e.
Proof.
  unfold run_on, script_on, bind, getitem.
  destruct (nth_error argv 1) as [path|] eqn:Hargv.
  - unfold ret at 1.
    destruct (sum_second_column_on con fs path initial_state) as [[v|e0] st1] eqn:Hsum.
    + destruct (print_on_cases con (final_line v) st1) as [[_ ->]|(e1 & He1 & ->)];
        cbn [fst]; intros H; [discriminate|].
      injection H as <-. right. right. now exists (final_line v).
    + cbn [fst]. intros H. injection H as <-.
      destruct (sum_on_ends _ _ _ _ _ _ Hsum) as [->|[Hfile|Hcon]].
      * now left.
      * right. left. now exists path.
      * right. now right.
  - cbn [fst]. intros H. injection H as <-. now left.
Qed.

Lemma X11_exceptions_that_end_the_program_witness :
  UnicodeEncodeError = IndexError \/
  (exists path,
      nth_error [Sample.prog; "text.csv"%string] 1 = Some path /\
      (Sample.disk path = OpenRaises UnicodeEncodeError \/
       exists rd, Sample.disk path = Opened rd /\ failure rd = Some UnicodeEncodeError)) \/
  from_console picky UnicodeEncodeError.
Proof.
  apply (X11_exceptions_that_end_the_program picky Sample.disk
           [Sample.prog; "text.csv"%string] UnicodeEncodeError).
  vm_compute. reflexivity.
Defined.
